(** * MYBOOKLET: the annotation-and-drawing engine of [components/Editor.tsx]

    A shallow embedding of the editor component: the tool state, the stroke
    renderer, the snapshot history, the pointer-coordinate mapping and the
    highlight/comment store, followed by the properties proved about them.

    Conventions of the embedding.
    - JavaScript numbers that carry coordinates and lengths are real numbers
      ([R]); the opacity is a rational ([Q]), so that the test for full
      opacity computes; the history pointer and the clock are integers ([Z]).
    - Every React event handler runs against the state of the render in which
      it was created; one handler call is one transition.  A callback that
      completes later (an image [onload]) is a transition of its own and keeps
      the values its closure captured.
    - The 2D canvas is an external interface.  Its bitmap is represented by
      the paint operations applied since it was last blank. *)

From Stdlib Require Import Reals Lra ZArith QArith Ascii String.
From stdpp Require Import gmap strings list pretty.

Set Warnings "-register-all".

(** ** JavaScript primitives used by the component *)

Module Js.

(** Relative index of [Array.prototype.slice]: a negative index counts from
    the end, and the result is clamped to [0 .. len]. *)
Definition clampIndex (len i : Z) : Z :=
  if (i <? 0)%Z then Z.max (len + i) 0 else Z.min i len.

(** [l.slice(s, e)] *)
Definition slice {A} (l : list A) (s e : Z) : list A :=
  let len := Z.of_nat (length l) in
  let k := clampIndex len s in
  let final := clampIndex len e in
  take (Z.to_nat (final - k)) (drop (Z.to_nat k) l).

(** [l[i]] for an integer [i]; [None] is [undefined]. *)
Definition index {A} (l : list A) (i : Z) : option A :=
  if (i <? 0)%Z then None else l !! Z.to_nat i.

(** [l.includes(x)] *)
Definition includes `{EqDecision A} (l : list A) (x : A) : bool :=
  bool_decide (x ∈ l).

(** White space of [String.prototype.trim], on the ASCII range: TAB, LF, VT,
    FF, CR and SPACE. *)
Definition isWhiteSpace (a : ascii) : bool :=
  let n := nat_of_ascii a in
  ((9 <=? n) && (n <=? 13)) || (n =? 32).

Fixpoint trimStartList (l : list ascii) : list ascii :=
  match l with
  | [] => []
  | a :: l' => if isWhiteSpace a then trimStartList l' else l
  end.

(** [s.trim()] *)
Definition trim (s : string) : string :=
  string_of_list_ascii
    (reverse (trimStartList (reverse (trimStartList (list_ascii_of_string s))))).

(** Truthiness of a string: only the empty string is falsy. *)
Definition truthy (s : string) : bool := negb (bool_decide (s = EmptyString)).

(** The completion of an evaluation that may raise a [TypeError]. *)
Inductive Completion (A : Type) : Type :=
| Return (a : A)
| TypeError.
Arguments Return {A} a.
Arguments TypeError {A}.

Definition bind {A B} (c : Completion A) (f : A -> Completion B) : Completion B :=
  match c with
  | Return a => f a
  | TypeError => TypeError
  end.

End Js.

(** ** The 2D canvas *)

Module Canvas2D.

Inductive CompositeOp := SourceOver | Multiply | DestinationOut.

Inductive PathCmd :=
| MoveTo (x y : R)
| LineTo (x y : R)
| Rect (x y w h : R)
| Arc (x y radius startAngle endAngle : R)
| ClosePath.

(** Where [drawImage] puts an image: [drawImage(img, 0, 0)] at its natural
    size, or [drawImage(img, x, y, w, h)]. *)
Inductive Placement :=
| AtOrigin
| Scaled (x y w h : R).

(** One paint operation on the bitmap. *)
Inductive Layer :=
| Stroked (path : list PathCmd) (strokeStyle : string) (lineWidth : R)
          (alpha : Q) (op : CompositeOp)
| Pasted (img : list Layer) (place : Placement) (alpha : Q) (op : CompositeOp).

(** The bitmap: the paint operations since it was last blank, oldest first.
    [[]] is the fully transparent bitmap. *)
Definition Bitmap := list Layer.

(** [ImageData] as returned by [getImageData(0, 0, width, height)]: a copy
    of the whole bitmap. *)
Definition ImageData := Bitmap.

(** The string returned by [toDataURL()].  The encoding is lossless, so the
    string is represented by the bitmap it encodes. *)
Inductive DataUrl := Png (pixels : Bitmap).

Definition decode (d : DataUrl) : Bitmap := let (b) := d in b.

Record DOMRect := { left : R; top : R; rectWidth : R; rectHeight : R }.

(** The canvas element: backing-store size, displayed box, pixels. *)
Record Canvas := {
  width : R;
  height : R;
  boundingClientRect : DOMRect;
  bitmap : Bitmap
}.

(** The drawing state of a [CanvasRenderingContext2D]. *)
Record Context := {
  strokeStyle : string;
  fillStyle : string;
  lineWidth : R;
  globalAlpha : Q;
  globalCompositeOperation : CompositeOp;
  path : list PathCmd
}.

(** The two refs of the component: the canvas element and the context
    obtained from it.  A paint operation of the context writes into the
    bitmap of that canvas. *)
Record Surface := { canvasRef : option Canvas; contextRef : option Context }.

Definition withContext (f : Context -> Context) (sf : Surface) : Surface :=
  {| canvasRef := canvasRef sf; contextRef := f <$> contextRef sf |}.

Definition setBitmap (b : Bitmap) (c : Canvas) : Canvas :=
  {| width := width c; height := height c;
     boundingClientRect := boundingClientRect c; bitmap := b |}.

Definition withBitmap (f : Context -> Bitmap -> Bitmap) (sf : Surface) : Surface :=
  match contextRef sf with
  | Some ctx =>
      {| canvasRef := (fun c => setBitmap (f ctx (bitmap c)) c) <$> canvasRef sf;
         contextRef := contextRef sf |}
  | None => sf
  end.

Definition setStrokeStyle (v : string) : Surface -> Surface :=
  withContext (fun c =>
    {| strokeStyle := v; fillStyle := fillStyle c; lineWidth := lineWidth c;
       globalAlpha := globalAlpha c;
       globalCompositeOperation := globalCompositeOperation c; path := path c |}).

Definition setFillStyle (v : string) : Surface -> Surface :=
  withContext (fun c =>
    {| strokeStyle := strokeStyle c; fillStyle := v; lineWidth := lineWidth c;
       globalAlpha := globalAlpha c;
       globalCompositeOperation := globalCompositeOperation c; path := path c |}).

Definition setLineWidth (v : R) : Surface -> Surface :=
  withContext (fun c =>
    {| strokeStyle := strokeStyle c; fillStyle := fillStyle c; lineWidth := v;
       globalAlpha := globalAlpha c;
       globalCompositeOperation := globalCompositeOperation c; path := path c |}).

Definition setGlobalAlpha (v : Q) : Surface -> Surface :=
  withContext (fun c =>
    {| strokeStyle := strokeStyle c; fillStyle := fillStyle c;
       lineWidth := lineWidth c; globalAlpha := v;
       globalCompositeOperation := globalCompositeOperation c; path := path c |}).

Definition setGlobalCompositeOperation (v : CompositeOp) : Surface -> Surface :=
  withContext (fun c =>
    {| strokeStyle := strokeStyle c; fillStyle := fillStyle c;
       lineWidth := lineWidth c; globalAlpha := globalAlpha c;
       globalCompositeOperation := v; path := path c |}).

Definition setPath (f : list PathCmd -> list PathCmd) : Surface -> Surface :=
  withContext (fun c =>
    {| strokeStyle := strokeStyle c; fillStyle := fillStyle c;
       lineWidth := lineWidth c; globalAlpha := globalAlpha c;
       globalCompositeOperation := globalCompositeOperation c;
       path := f (path c) |}).

Definition beginPath : Surface -> Surface := setPath (fun _ => []).
Definition moveTo (x y : R) : Surface -> Surface := setPath (fun p => p ++ [MoveTo x y]).
Definition lineTo (x y : R) : Surface -> Surface := setPath (fun p => p ++ [LineTo x y]).
Definition rect (x y w h : R) : Surface -> Surface := setPath (fun p => p ++ [Rect x y w h]).
Definition arc (x y r a0 a1 : R) : Surface -> Surface :=
  setPath (fun p => p ++ [Arc x y r a0 a1]).
Definition closePath : Surface -> Surface := setPath (fun p => p ++ [ClosePath]).

(** [ctx.stroke()]: paints the current path with the current style. *)
Definition stroke : Surface -> Surface :=
  withBitmap (fun ctx b =>
    b ++ [Stroked (path ctx) (strokeStyle ctx) (lineWidth ctx)
                  (globalAlpha ctx) (globalCompositeOperation ctx)]).

(** [ctx.clearRect(0, 0, canvas.width, canvas.height)] *)
Definition clearRect : Surface -> Surface := withBitmap (fun _ _ => []).

(** [ctx.getImageData(0, 0, canvas.width, canvas.height)] *)
Definition getImageData (c : Canvas) : ImageData := bitmap c.

(** [ctx.putImageData(data, 0, 0)]: replaces the pixels, whatever the
    alpha and the composite operation. *)
Definition putImageData (data : ImageData) : Surface -> Surface :=
  withBitmap (fun _ _ => data).

(** [ctx.drawImage(img, ...)].  Composited at its natural size (the size of
    the canvas it was taken from) at the origin over a blank bitmap, opaque
    and [source-over], an image is reproduced as it is; any other
    composition is one more layer. *)
Definition drawImage (img : Bitmap) (place : Placement) : Surface -> Surface :=
  withBitmap (fun ctx b =>
    match b, place, globalCompositeOperation ctx with
    | [], AtOrigin, SourceOver =>
        if Qeq_bool (globalAlpha ctx) 1 then img
        else [Pasted img place (globalAlpha ctx) SourceOver]
    | _, _, op => b ++ [Pasted img place (globalAlpha ctx) op]
    end).

(** [canvas.toDataURL()] *)
Definition toDataURL (c : Canvas) : DataUrl := Png (bitmap c).

(** The context a fresh [getContext('2d')] returns, after the component has
    set the line caps (not modelled: they are never changed). *)
Definition freshContext : Context :=
  {| strokeStyle := "#000000"; fillStyle := "#000000"; lineWidth := 1;
     globalAlpha := 1; globalCompositeOperation := SourceOver; path := [] |}.

End Canvas2D.

(** ** The editor component *)

Module Editor.

Import Js.
Import Canvas2D.

Notation "x |> f" := (f x) (at level 51, left associativity, only parsing).

Inductive ToolType := text | fine_liner | pen | marker | highlighter | eraser | shape.
Inductive ShapeType := rect | circle | triangle | line.

#[global] Instance ToolType_eq_dec : EqDecision ToolType.
Proof. solve_decision. Defined.

#[global] Instance ShapeType_eq_dec : EqDecision ShapeType.
Proof. solve_decision. Defined.

Definition PRESET_COLORS : list string :=
  ["#000000"; "#135bec"; "#ef4444"; "#22c55e"; "#a855f7"; "#f59e0b"; "#ec4899"]%string.

(** *** Records of [types.ts] *)

Module Comment.
Record t := { id : string; text : string; author : string; createdAt : Z }.
End Comment.

Module Highlight.
Record t := { id : string; color : string; comments : list Comment.t }.
End Highlight.

(** *** Pointer events and coordinates *)

Record Touch := { clientX : R; clientY : R }.

Inductive PointerEvent :=
| MouseEvent (clientX clientY : R)
| TouchEvent (touches : list Touch).

(** The result of [getCoordinates]. *)
Record Coordinates := { offsetX : R; offsetY : R }.

(** The value of the [startPos] ref. *)
Module StartPos.
Record t := { x : R; y : R }.
End StartPos.

(** *** The text selection, as far as [handleHighlight] looks at it *)

Record Selection := {
  rangeCount : nat;
  isCollapsed : bool;
  (** the first range partially selects a node that is not a text node, so
      that [surroundContents] raises before it changes the document *)
  spansBlocks : bool
}.

(** *** State of the component *)

Record ToolState := {
  tool : ToolType;
  selectedShape : ShapeType;
  color : string;
  recentColors : list string
}.

Record StrokeState := {
  isDrawing : bool;
  startPos : option StartPos.t;
  snapshot : option ImageData;
  isShiftPressed : bool
}.

Record HistoryStack := { history : list DataUrl; historyStep : Z }.

Record AnnotationStore := {
  highlights : gmap string Highlight.t;
  activeHighlightId : option string;
  newComment : string
}.

(** What the component reaches outside its own state. *)
Record Host := {
  isDarkMode : bool;
  (** [window.getSelection()] *)
  selection : option Selection;
  (** the highlight spans of the text body: identifier and background *)
  markers : list (string * string);
  (** the lines written by [console.warn] *)
  console : list string;
  (** images created by [restoreCanvasState] whose [onload] has not fired *)
  restores : list Bitmap;
  (** images being read by [handleImageUpload], each with the [historyStep]
      of the render whose [saveCanvasToHistory] its callback holds *)
  uploads : list (Z * Bitmap);
  (** the image of [page.drawingData] while it is decoded after mounting *)
  initialImage : option DataUrl
}.

Record EditorState := {
  tools : ToolState;
  stroke : StrokeState;
  surface : Surface;
  stack : HistoryStack;
  store : AnnotationStore;
  host : Host
}.

Definition setTools (v : ToolState) (s : EditorState) : EditorState :=
  {| tools := v; stroke := stroke s; surface := surface s; stack := stack s;
     store := store s; host := host s |}.

Definition setStroke (v : StrokeState) (s : EditorState) : EditorState :=
  {| tools := tools s; stroke := v; surface := surface s; stack := stack s;
     store := store s; host := host s |}.

Definition setSurface (v : Surface) (s : EditorState) : EditorState :=
  {| tools := tools s; stroke := stroke s; surface := v; stack := stack s;
     store := store s; host := host s |}.

Definition setStack (v : HistoryStack) (s : EditorState) : EditorState :=
  {| tools := tools s; stroke := stroke s; surface := surface s; stack := v;
     store := store s; host := host s |}.

Definition setStore (v : AnnotationStore) (s : EditorState) : EditorState :=
  {| tools := tools s; stroke := stroke s; surface := surface s; stack := stack s;
     store := v; host := host s |}.

Definition setHost (v : Host) (s : EditorState) : EditorState :=
  {| tools := tools s; stroke := stroke s; surface := surface s; stack := stack s;
     store := store s; host := v |}.

(** The pixels currently on the raster surface ([None]: no canvas). *)
Definition pixels (s : EditorState) : option Bitmap :=
  bitmap <$> canvasRef (surface s).

(** *** Tool state *)

Definition setTool (t : ToolType) (ts : ToolState) : ToolState :=
  {| tool := t; selectedShape := selectedShape ts; color := color ts;
     recentColors := recentColors ts |}.

Definition setSelectedShape (k : ShapeType) (ts : ToolState) : ToolState :=
  {| tool := tool ts; selectedShape := k; color := color ts;
     recentColors := recentColors ts |}.

(** [handleSetColor] *)
Definition handleSetColor (newColor : string) (ts : ToolState) : ToolState :=
  {| tool := tool ts; selectedShape := selectedShape ts; color := newColor;
     recentColors :=
       if negb (includes PRESET_COLORS newColor) then
         let filtered := filter (fun c => c <> newColor) (recentColors ts) in
         slice (newColor :: filtered) 0 5
       else recentColors ts |}.

(** *** Coordinate mapping *)

(** [getCoordinates].  [TypeError] is the failure of [touches[0].clientX] on
    an empty touch list. *)
Definition getCoordinates (sf : Surface) (e : PointerEvent) : Completion Coordinates :=
  match canvasRef sf with
  | None => Return {| offsetX := 0; offsetY := 0 |}
  | Some canvas =>
      let rect := boundingClientRect canvas in
      let client :=
        match e with
        | TouchEvent touches =>
            match touches !! 0%nat with
            | Some touch => Return (clientX touch, clientY touch)
            | None => TypeError
            end
        | MouseEvent cx cy => Return (cx, cy)
        end in
      bind client (fun '(cx, cy) =>
        let scaleX := (width canvas / rectWidth rect)%R in
        let scaleY := (height canvas / rectHeight rect)%R in
        Return {| offsetX := ((cx - left rect) * scaleX)%R;
                  offsetY := ((cy - top rect) * scaleY)%R |})
  end.

(** *** History *)

(** [saveCanvasToHistory] of the render whose [historyStep] was
    [closureStep]: the slice uses the value the closure holds, the pointer is
    advanced by a functional update of the current state. *)
Definition saveCanvasToHistory (closureStep : Z) (s : EditorState) : EditorState :=
  match canvasRef (surface s) with
  | Some canvas =>
      let data := toDataURL canvas in
      let prev := history (stack s) in
      let newHistory := slice prev 0 (closureStep + 1) in
      s |> setStack {| history := newHistory ++ [data];
                       historyStep := (historyStep (stack s) + 1)%Z |}
  | None => s
  end.

Definition pushRestore (img : Bitmap) (h : Host) : Host :=
  {| isDarkMode := isDarkMode h; selection := selection h; markers := markers h;
     console := console h; restores := restores h ++ [img];
     uploads := uploads h; initialImage := initialImage h |}.

Definition setRestores (l : list Bitmap) (h : Host) : Host :=
  {| isDarkMode := isDarkMode h; selection := selection h; markers := markers h;
     console := console h; restores := l;
     uploads := uploads h; initialImage := initialImage h |}.

Definition setUploads (l : list (Z * Bitmap)) (h : Host) : Host :=
  {| isDarkMode := isDarkMode h; selection := selection h; markers := markers h;
     console := console h; restores := restores h;
     uploads := l; initialImage := initialImage h |}.

Definition setInitialImage (o : option DataUrl) (h : Host) : Host :=
  {| isDarkMode := isDarkMode h; selection := selection h; markers := markers h;
     console := console h; restores := restores h;
     uploads := uploads h; initialImage := o |}.

(** [restoreCanvasState(dataUrl)]: clears the canvas at once and leaves an
    image loading; the image is drawn by [restoreOnload].  With [undefined]
    for [dataUrl] nothing ever loads. *)
Definition restoreCanvasState (dataUrl : option DataUrl) (s : EditorState) : EditorState :=
  match contextRef (surface s), canvasRef (surface s) with
  | Some _, Some _ =>
      let s := s |> setSurface (surface s |> clearRect) in
      match dataUrl with
      | Some d => s |> setHost (host s |> pushRestore (decode d))
      | None => s
      end
  | _, _ => s
  end.

(** [img.onload] of the [i]-th image left loading by [restoreCanvasState]. *)
Definition restoreOnload (i : nat) (s : EditorState) : EditorState :=
  match restores (host s) !! i with
  | Some img =>
      s |> setHost (host s |> setRestores (delete i (restores (host s))))
        |> setSurface (surface s |> setGlobalCompositeOperation SourceOver
                                 |> setGlobalAlpha 1
                                 |> drawImage img AtOrigin)
  | None => s
  end.

(** [handleUndo].  With the text tool the action goes to the text body
    ([execCommand('undo')]), which is outside this state. *)
Definition handleUndo (s : EditorState) : EditorState :=
  if decide (tool (tools s) = text) then s
  else
    let historyStep := historyStep (stack s) in
    if (0 <? historyStep)%Z then
      let newStep := (historyStep - 1)%Z in
      s |> setStack {| history := history (stack s); historyStep := newStep |}
        |> restoreCanvasState (index (history (stack s)) newStep)
    else if (historyStep =? 0)%Z then
      let s := s |> setStack {| history := history (stack s); historyStep := (-1)%Z |} in
      match contextRef (surface s), canvasRef (surface s) with
      | Some _, Some _ => s |> setSurface (surface s |> clearRect)
      | _, _ => s
      end
    else s.

(** [handleRedo] *)
Definition handleRedo (s : EditorState) : EditorState :=
  if decide (tool (tools s) = text) then s
  else
    let historyStep := historyStep (stack s) in
    if (historyStep <? Z.of_nat (length (history (stack s))) - 1)%Z then
      let newStep := (historyStep + 1)%Z in
      s |> setStack {| history := history (stack s); historyStep := newStep |}
        |> restoreCanvasState (index (history (stack s)) newStep)
    else s.

(** [handleImageUpload], the change event with a file: the image starts
    loading and its callback keeps the [saveCanvasToHistory] of this render. *)
Definition handleImageUpload (img : Bitmap) (s : EditorState) : EditorState :=
  s |> setHost (host s |> setUploads (uploads (host s) ++ [(historyStep (stack s), img)])).

(** [img.onload] of the [i]-th image being inserted. *)
Definition uploadOnload (i : nat) (s : EditorState) : EditorState :=
  match uploads (host s) !! i with
  | Some (closureStep, img) =>
      let s := s |> setHost (host s |> setUploads (delete i (uploads (host s)))) in
      match contextRef (surface s) with
      | Some _ =>
          s |> setSurface (surface s |> setGlobalCompositeOperation SourceOver
                                     |> setGlobalAlpha 1
                                     |> drawImage img (Scaled 50 50 200 200))
            |> saveCanvasToHistory closureStep
      | None => s
      end
  | None => s
  end.

(** [img.onload] of the image of [page.drawingData], set up when mounting. *)
Definition initialOnload (s : EditorState) : EditorState :=
  match initialImage (host s) with
  | Some d =>
      s |> setHost (host s |> setInitialImage None)
        |> setSurface (surface s |> drawImage (decode d) AtOrigin)
        |> setStack {| history := [d]; historyStep := 0 |}
  | None => s
  end.

(** *** Stroke renderer *)

Definition setIsDrawing (b : bool) (st : StrokeState) : StrokeState :=
  {| isDrawing := b; startPos := startPos st; snapshot := snapshot st;
     isShiftPressed := isShiftPressed st |}.

Definition setStartPos (p : option StartPos.t) (st : StrokeState) : StrokeState :=
  {| isDrawing := isDrawing st; startPos := p; snapshot := snapshot st;
     isShiftPressed := isShiftPressed st |}.

Definition setSnapshot (d : option ImageData) (st : StrokeState) : StrokeState :=
  {| isDrawing := isDrawing st; startPos := startPos st; snapshot := d;
     isShiftPressed := isShiftPressed st |}.

Definition setIsShiftPressed (b : bool) (st : StrokeState) : StrokeState :=
  {| isDrawing := isDrawing st; startPos := startPos st; snapshot := snapshot st;
     isShiftPressed := b |}.

(** [startDrawing].  When [getCoordinates] raises, the handler stops there;
    [setIsDrawing(true)] has been issued already. *)
Definition startDrawing (e : PointerEvent) (s : EditorState) : EditorState :=
  if decide (tool (tools s) = text) then s
  else
    let s := s |> setStroke (stroke s |> setIsDrawing true) in
    match getCoordinates (surface s) e with
    | TypeError => s
    | Return c =>
        let s := s |> setStroke (stroke s |> setStartPos
                        (Some {| StartPos.x := offsetX c; StartPos.y := offsetY c |})) in
        match contextRef (surface s), canvasRef (surface s) with
        | Some _, Some canvas =>
            let s := s |> setStroke (stroke s |> setSnapshot (Some (getImageData canvas))) in
            if bool_decide (tool (tools s) <> shape)
               || bool_decide (selectedShape (tools s) = line)
            then s |> setSurface (surface s |> beginPath
                                            |> moveTo (offsetX c) (offsetY c))
            else s
        | _, _ => s
        end
    end.

(** The [switch] of the preview branch of [draw] (no eraser case). *)
Definition previewSwitch (t : ToolType) (sf : Surface) : Surface :=
  match t with
  | fine_liner => sf |> setLineWidth 1
  | pen => sf |> setLineWidth 3
  | marker => sf |> setLineWidth 8
  | highlighter =>
      sf |> setGlobalAlpha 0.35 |> setLineWidth 24
         |> setGlobalCompositeOperation Multiply
  | _ => sf |> setLineWidth 2
  end.

(** The [switch] of the freehand branch of [draw]. *)
Definition freehandSwitch (t : ToolType) (sf : Surface) : Surface :=
  match t with
  | fine_liner => sf |> setLineWidth 1
  | pen => sf |> setLineWidth 3
  | marker => sf |> setLineWidth 8
  | highlighter =>
      sf |> setGlobalAlpha 0.35 |> setLineWidth 24
         |> setGlobalCompositeOperation Multiply
  | eraser => sf |> setLineWidth 40 |> setGlobalCompositeOperation DestinationOut
  | _ => sf |> setLineWidth 2
  end.

(** The path of the preview in [draw], from the start position to the
    current coordinates. *)
Definition previewPath (t : ToolType) (k : ShapeType)
    (startX startY offsetX offsetY : R) (sf : Surface) : Surface :=
  let width := (offsetX - startX)%R in
  let height := (offsetY - startY)%R in
  let sf := sf |> beginPath in
  if decide (t = shape) then
    match k with
    | rect => sf |> Canvas2D.rect startX startY width height
    | circle =>
        let radius := sqrt (width * width + height * height) in
        sf |> arc startX startY radius 0 (2 * PI)
    | triangle =>
        sf |> moveTo (startX + width / 2) startY
           |> lineTo startX (startY + height)
           |> lineTo (startX + width) (startY + height)
           |> closePath
    | line => sf |> moveTo startX startY |> lineTo offsetX offsetY
    end
  else sf |> moveTo startX startY |> lineTo offsetX offsetY.

(** The body of [draw] after its guard and after [getCoordinates]. *)
Definition paintSample (ts : ToolState) (dark : bool) (st : StrokeState)
    (start : StartPos.t) (c : Coordinates) (sf : Surface) : Surface :=
  let sf := sf |> setStrokeStyle
                    (if decide (tool ts = eraser)
                     then (if dark then "#1c222e" else "white")%string
                     else color ts)
               |> setFillStyle (color ts) in
  if bool_decide (tool ts = shape)
     || (bool_decide (tool ts <> eraser) && isShiftPressed st)
  then
    let sf := match snapshot st with
              | Some data => sf |> putImageData data
              | None => sf
              end in
    let sf := sf |> setGlobalAlpha 1 |> setGlobalCompositeOperation SourceOver in
    let sf := if decide (tool ts = shape) then sf |> setLineWidth 2
              else sf |> previewSwitch (tool ts) in
    sf |> previewPath (tool ts) (selectedShape ts)
            (StartPos.x start) (StartPos.y start) (offsetX c) (offsetY c)
       |> Canvas2D.stroke
  else
    sf |> setGlobalAlpha 1 |> setGlobalCompositeOperation SourceOver
       |> freehandSwitch (tool ts)
       |> lineTo (offsetX c) (offsetY c)
       |> Canvas2D.stroke.

(** [draw] *)
Definition draw (e : PointerEvent) (s : EditorState) : EditorState :=
  if negb (isDrawing (stroke s)) then s
  else
    match contextRef (surface s), startPos (stroke s) with
    | Some _, Some start =>
        if decide (tool (tools s) = text) then s
        else
          match getCoordinates (surface s) e with
          | TypeError => s
          | Return c =>
              s |> setSurface
                     (surface s |> paintSample (tools s) (isDarkMode (host s))
                                               (stroke s) start c)
          end
    | _, _ => s
    end.

(** [stopDrawing] *)
Definition stopDrawing (s : EditorState) : EditorState :=
  if isDrawing (stroke s) then
    s |> setSurface (surface s |> closePath)
      |> setStroke (stroke s |> setIsDrawing false |> setStartPos None
                             |> setSnapshot None)
      |> saveCanvasToHistory (historyStep (stack s))
  else s.

(** *** Highlights and comments *)

Definition setSelection (o : option Selection) (h : Host) : Host :=
  {| isDarkMode := isDarkMode h; selection := o; markers := markers h;
     console := console h; restores := restores h;
     uploads := uploads h; initialImage := initialImage h |}.

Definition addMarker (id hColor : string) (h : Host) : Host :=
  {| isDarkMode := isDarkMode h; selection := selection h;
     markers := markers h ++ [(id, hColor)];
     console := console h; restores := restores h;
     uploads := uploads h; initialImage := initialImage h |}.

Definition consoleWarn (msg : string) (h : Host) : Host :=
  {| isDarkMode := isDarkMode h; selection := selection h; markers := markers h;
     console := console h ++ [msg]; restores := restores h;
     uploads := uploads h; initialImage := initialImage h |}.

(** [selection.removeAllRanges()] *)
Definition removeAllRanges (sel : Selection) : Selection :=
  {| rangeCount := 0; isCollapsed := true; spansBlocks := false |}.

Definition setActiveHighlightId (o : option string) (a : AnnotationStore) : AnnotationStore :=
  {| highlights := highlights a; activeHighlightId := o; newComment := newComment a |}.

Definition setNewComment (txt : string) (a : AnnotationStore) : AnnotationStore :=
  {| highlights := highlights a; activeHighlightId := activeHighlightId a;
     newComment := txt |}.

Definition setHighlights (m : gmap string Highlight.t) (a : AnnotationStore) : AnnotationStore :=
  {| highlights := m; activeHighlightId := activeHighlightId a;
     newComment := newComment a |}.

(** [handleHighlight(hColor)], with [now] the value of [Date.now()]. *)
Definition handleHighlight (hColor : string) (now : Z) (s : EditorState) : EditorState :=
  match selection (host s) with
  | None => s
  | Some sel =>
      if (rangeCount sel =? 0)%nat || isCollapsed sel then s
      else
        let id := ("hl_" +:+ pretty now)%string in
        let s :=
          if spansBlocks sel then
            (* [range.surroundContents(span)] raised: the [catch] clause *)
            s |> setHost (host s |> consoleWarn
                   "Highlight failed: Selection spans multiple blocks")
          else
            s |> setHost (host s |> addMarker id hColor)
              |> setStore (store s
                   |> setHighlights
                        (<[id := {| Highlight.id := id; Highlight.color := hColor;
                                    Highlight.comments := [] |}]> (highlights (store s)))
                   |> setActiveHighlightId (Some id)) in
        s |> setHost (host s |> setSelection (Some (removeAllRanges sel)))
  end.

(** [handleEditorClick], with [hlId] the value of
    [target.getAttribute('data-highlight-id')]. *)
Definition handleEditorClick (hlId : option string) (s : EditorState) : EditorState :=
  match hlId with
  | Some id =>
      if truthy id then s |> setStore (store s |> setActiveHighlightId (Some id))
      else s |> setStore (store s |> setActiveHighlightId None)
  | None => s |> setStore (store s |> setActiveHighlightId None)
  end.

(** The state update of [addComment]:
    [prev => ({...prev, [id]: {...prev[id], comments: [...prev[id].comments, comment]}})].
    Reading [.comments] of [undefined] raises. *)
Definition appendComment (id : string) (comment : Comment.t)
    (prev : gmap string Highlight.t) : Completion (gmap string Highlight.t) :=
  match prev !! id with
  | Some h =>
      Return (<[id := {| Highlight.id := Highlight.id h;
                         Highlight.color := Highlight.color h;
                         Highlight.comments := Highlight.comments h ++ [comment] |}]> prev)
  | None => TypeError
  end.

(** [addComment], with [now1] and [now2] the values of its two [Date.now()]
    calls.  [TypeError] is the exception raised while the update is applied. *)
Definition addComment (now1 now2 : Z) (s : EditorState) : Completion EditorState :=
  match activeHighlightId (store s) with
  | None => Return s
  | Some activeHighlightId =>
      if negb (truthy activeHighlightId) || negb (truthy (trim (newComment (store s))))
      then Return s
      else
        let comment :=
          {| Comment.id := ("c_" +:+ pretty now1)%string;
             Comment.text := newComment (store s);
             Comment.author := "Me";
             Comment.createdAt := now2 |} in
        bind (appendComment activeHighlightId comment (highlights (store s)))
          (fun m => Return (s |> setStore (store s |> setHighlights m
                                                   |> setNewComment EmptyString)))
  end.

(** *** Events *)

Inductive Event :=
| SelectTool (t : ToolType)
| SelectShape (k : ShapeType)
| PickColor (c : string)
| ShiftKey (down : bool)
| PointerDown (e : PointerEvent)
| PointerMove (e : PointerEvent)
| PointerUp
| ClickUndo
| ClickRedo
| RestoreLoaded (i : nat)
| ChooseImage (img : Bitmap)
| UploadLoaded (i : nat)
| InitialLoaded
| ChangeSelection (sel : option Selection)
| ClickHighlight (hColor : string) (now : Z)
| ClickEditor (hlId : option string)
| TypeComment (txt : string)
| PostComment (now1 now2 : Z).

(** One event, handled by the handlers of the current render.  [TypeError]
    is an exception that escapes while React applies a state update. *)
Definition step (ev : Event) (s : EditorState) : Completion EditorState :=
  match ev with
  | SelectTool t => Return (s |> setTools (tools s |> setTool t))
  | SelectShape k => Return (s |> setTools (tools s |> setSelectedShape k))
  | PickColor c => Return (s |> setTools (tools s |> handleSetColor c))
  | ShiftKey b => Return (s |> setStroke (stroke s |> setIsShiftPressed b))
  | PointerDown e => Return (startDrawing e s)
  | PointerMove e => Return (draw e s)
  | PointerUp => Return (stopDrawing s)
  | ClickUndo => Return (handleUndo s)
  | ClickRedo => Return (handleRedo s)
  | RestoreLoaded i => Return (restoreOnload i s)
  | ChooseImage img => Return (handleImageUpload img s)
  | UploadLoaded i => Return (uploadOnload i s)
  | InitialLoaded => Return (initialOnload s)
  | ChangeSelection sel => Return (s |> setHost (host s |> setSelection sel))
  | ClickHighlight hColor now => Return (handleHighlight hColor now s)
  | ClickEditor hlId => Return (handleEditorClick hlId s)
  | TypeComment txt => Return (s |> setStore (store s |> setNewComment txt))
  | PostComment now1 now2 => addComment now1 now2 s
  end.

Fixpoint run (evs : list Event) (s : EditorState) : Completion EditorState :=
  match evs with
  | [] => Return s
  | ev :: evs' => bind (step ev s) (run evs')
  end.

(** The state after the component has mounted on a page: [canvas] is the
    canvas element (blank, sized from its parent), [has2d] tells whether
    [getContext('2d')] returned a context. *)
Definition mount (dark : bool) (drawingData : option DataUrl)
    (pageHighlights : option (gmap string Highlight.t))
    (canvas : option Canvas) (has2d : bool) : EditorState :=
  let canvas := setBitmap [] <$> canvas in
  let context :=
    match canvas with
    | Some _ => if has2d then Some freshContext else None
    | None => None
    end in
  {| tools := {| tool := text; selectedShape := rect; color := "#135bec";
                 recentColors := [] |};
     stroke := {| isDrawing := false; startPos := None; snapshot := None;
                  isShiftPressed := false |};
     surface := {| canvasRef := canvas; contextRef := context |};
     stack := {| history := []; historyStep := -1 |};
     store := {| highlights := default ∅ pageHighlights;
                 activeHighlightId := None; newComment := EmptyString |};
     host := {| isDarkMode := dark; selection := None; markers := [];
                console := []; restores := []; uploads := [];
                initialImage := match context with
                                | Some _ => drawingData
                                | None => None
                                end |} |}.

(** The states the component can be in. *)
Inductive reachable : EditorState -> Prop :=
| reachable_mount dark drawingData pageHighlights canvas has2d :
    reachable (mount dark drawingData pageHighlights canvas has2d)
| reachable_step s ev s' :
    reachable s -> step ev s = Return s' -> reachable s'.

(** *** Strokes, undo and redo as the user performs them *)

(** One move sample: the state of the Shift key when it arrives, and the
    pointer event. *)
Definition sample (m : bool * PointerEvent) (s : EditorState) : EditorState :=
  draw m.2 (s |> setStroke (stroke s |> setIsShiftPressed m.1)).

Definition samples (ms : list (bool * PointerEvent)) (s : EditorState) : EditorState :=
  foldl (fun s m => sample m s) s ms.

(** A stroke: the tool settings chosen for it, the pointer-down event and the
    move samples up to the release. *)
Record Stroke := {
  sk_tool : ToolType;
  sk_shape : ShapeType;
  sk_color : string;
  sk_down : PointerEvent;
  sk_moves : list (bool * PointerEvent)
}.

(** A completed stroke: tool selection, pointer down, the samples, pointer up. *)
Definition completeStroke (k : Stroke) (s : EditorState) : EditorState :=
  s |> (fun s => setTools (tools s |> setTool (sk_tool k)
                                   |> setSelectedShape (sk_shape k)
                                   |> handleSetColor (sk_color k)) s)
    |> startDrawing (sk_down k)
    |> samples (sk_moves k)
    |> stopDrawing.

Definition completeStrokes (ks : list Stroke) (s : EditorState) : EditorState :=
  foldl (fun s k => completeStroke k s) s ks.

(** An undo whose restore has been applied: the click, then the [onload] of
    the image it left loading (if any). *)
Definition undo (s : EditorState) : EditorState := s |> handleUndo |> restoreOnload 0.

(** A redo whose restore has been applied. *)
Definition redo (s : EditorState) : EditorState := s |> handleRedo |> restoreOnload 0.

(** The invariant of the history pointer (data model, section 3). *)
Definition pointerInRange (h : HistoryStack) : Prop :=
  (-1 <= historyStep h <= Z.of_nat (length (history h)) - 1)%Z.

(** *** The renderer table and the preview primitives of the specification *)

(** Line width, opacity and blend mode per tool (section 4.3). *)
Definition toolLineWidth (t : ToolType) : R :=
  match t with
  | fine_liner => 1 | pen => 3 | marker => 8 | highlighter => 24
  | eraser => 40 | _ => 2
  end.

Definition toolOpacity (t : ToolType) : Q :=
  match t with highlighter => 0.35 | _ => 1 end.

Definition toolBlend (t : ToolType) : CompositeOp :=
  match t with
  | highlighter => Multiply
  | eraser => DestinationOut
  | _ => SourceOver
  end.

(** The preview primitive from the start coordinate to the current one. *)
Definition previewPrimitive (k : ShapeType) (start : StartPos.t) (c : Coordinates)
    : list PathCmd :=
  let sx := StartPos.x start in
  let sy := StartPos.y start in
  let w := (offsetX c - sx)%R in
  let h := (offsetY c - sy)%R in
  match k with
  | rect => [Rect sx sy w h]
  | circle => [Arc sx sy (sqrt (w * w + h * h)) 0 (2 * PI)]
  | triangle =>
      [MoveTo (sx + w / 2) sy; LineTo sx (sy + h); LineTo (sx + w) (sy + h); ClosePath]
  | line => [MoveTo sx sy; LineTo (offsetX c) (offsetY c)]
  end.

(** The single layer a preview adds: the primitive of the selected shape for
    the shape tool, a straight segment for a freehand tool. *)
Definition previewLayer (ts : ToolState) (start : StartPos.t) (c : Coordinates) : Layer :=
  Stroked
    (previewPrimitive (if decide (tool ts = shape) then selectedShape ts else line) start c)
    (color ts) (toolLineWidth (tool ts)) (toolOpacity (tool ts)) (toolBlend (tool ts)).

(** A move sample follows the restore-then-redraw pattern when what it
    leaves on the surface is the pre-stroke snapshot and one layer. *)
Definition restoresThenPaintsOnce (s : EditorState) (e : PointerEvent) : Prop :=
  exists pre layer,
    snapshot (stroke s) = Some pre /\ pixels (draw e s) = Some (pre ++ [layer]).

(** The pointer position relative to the displayed element: the offset of the
    pointer from the top-left corner of the bounding box. *)
Definition relativePosition (c : Canvas) (e : PointerEvent) : option (R * R) :=
  let rect := boundingClientRect c in
  match e with
  | MouseEvent cx cy => Some ((cx - left rect)%R, (cy - top rect)%R)
  | TouchEvent touches =>
      (fun t => ((clientX t - left rect)%R, (clientY t - top rect)%R)) <$> touches !! 0%nat
  end.

(** *** Views of the state and invariants used in the proofs *)

(** The geometry of the canvas: backing size and displayed box. *)
Definition geometry (sf : Surface) : option (R * R * DOMRect) :=
  (fun c => (width c, height c, boundingClientRect c)) <$> canvasRef sf.

Definition hasContext (sf : Surface) : bool :=
  match contextRef sf with Some _ => true | None => false end.

Definition recentColorsOk (l : list string) : Prop :=
  (length l <= 5)%nat /\ NoDup l /\ Forall (fun c => c ∉ PRESET_COLORS) l.

(** A stroke in progress since [s0]: begun at [start], with [pre] the
    pixels captured at its beginning. *)
Definition inStroke (s0 : EditorState) (start : StartPos.t) (pre : Bitmap)
    (s : EditorState) : Prop :=
  tools s = tools s0 /\ stack s = stack s0 /\ store s = store s0 /\ host s = host s0 /\
  isDrawing (stroke s) = true /\
  startPos (stroke s) = Some start /\
  snapshot (stroke s) = Some pre /\
  geometry (surface s) = geometry (surface s0) /\
  hasContext (surface s) = true.

(** No restore is loading, and the history and the tool settings are [h]
    and [ts]. *)
Definition settled (h : list DataUrl) (ts : ToolState) (s : EditorState) : Prop :=
  history (stack s) = h /\ tools s = ts /\ restores (host s) = [] /\
  is_Some (canvasRef (surface s)).


(** *** Concrete states used in the examples *)

Definition canvas100 : Canvas :=
  {| width := 100; height := 100;
     boundingClientRect := {| left := 0; top := 0; rectWidth := 100; rectHeight := 100 |};
     bitmap := [] |}.

(** A blank page, mounted. *)
Definition blankPage : EditorState := mount false None None (Some canvas100) true.

Definition penStroke : Stroke :=
  {| sk_tool := pen; sk_shape := rect; sk_color := "#135bec";
     sk_down := MouseEvent 1 1; sk_moves := [(false, MouseEvent 2 2)] |}.

Definition eraserStroke : Stroke :=
  {| sk_tool := eraser; sk_shape := rect; sk_color := "#135bec";
     sk_down := MouseEvent 1 1; sk_moves := [(false, MouseEvent 2 2)] |}.

(** The eraser, Shift held, one move sample already drawn. *)
Definition eraserWithShift : EditorState :=
  blankPage
    |> (fun s => setTools (tools s |> setTool eraser) s)
    |> (fun s => setStroke (stroke s |> setIsShiftPressed true) s)
    |> startDrawing (MouseEvent 0 0)
    |> draw (MouseEvent 10 0).

(** A page whose text body carries a highlight span that the highlight map
    of the page does not know, clicked, with a comment typed. *)
Definition danglingHighlight : EditorState :=
  blankPage
    |> handleEditorClick (Some "hl_1"%string)
    |> (fun s => setStore (store s |> setNewComment "check this") s).

(** An image is chosen for insertion, one stroke is completed while it is
    read, then the image arrives. *)
Definition strokeDuringUpload : list Event :=
  [SelectTool pen; ChooseImage []; PointerDown (MouseEvent 1 1); PointerUp;
   UploadLoaded 0].

Definition selectionAcrossBlocks : Selection :=
  {| rangeCount := 1; isCollapsed := false; spansBlocks := true |}.

Definition collapsedSelection : Selection :=
  {| rangeCount := 1; isCollapsed := true; spansBlocks := false |}.

(** A second canvas, twice the backing size and twice the displayed size of
    [canvas100], elsewhere on the page. *)
Definition canvas200 : Canvas :=
  {| width := 2 * 100; height := 2 * 100;
     boundingClientRect :=
       {| left := 7; top := 9; rectWidth := 2 * 100; rectHeight := 2 * 100 |};
     bitmap := [] |}.

(** The shape tool with the circle selected, on a blank page. *)
Definition shapeCircle : EditorState :=
  blankPage |> (fun s => setTools (tools s |> setTool shape |> setSelectedShape circle) s).

(** The pen selected on a blank page. *)
Definition penOnBlank : EditorState :=
  blankPage |> (fun s => setTools (tools s |> setTool pen) s).


(** Two custom colours picked on a blank page. *)
Definition customPicks : EditorState :=
  blankPage
    |> (fun s => setTools (tools s |> handleSetColor "#111111") s)
    |> (fun s => setTools (tools s |> handleSetColor "#222222") s).

(** *** Saving a page, and the application around the editor *)

Inductive PageStyle := plain | lined | grid.

(** [Page] of [types.ts] *)
Module Page.
Record t := {
  id : string;
  title : string;
  date : string;
  summary : string;
  content : string;
  style : PageStyle;
  isBookmarked : bool;
  drawingData : option DataUrl;
  images : list string;
  highlights : option (gmap string Highlight.t)
}.
End Page.

(** [Book] of [types.ts] *)
Module Book.
Record t := {
  id : string;
  title : string;
  coverColor : string;
  isStarred : bool;
  pages : list Page.t;
  updatedAt : Z
}.
End Book.

(** The states [title], [summary] and [style] of the editor and the text
    body, [editorRef.current?.innerHTML] ([None]: no element). *)
Module Sheet.
Record t := {
  title : string;
  summary : string;
  style : PageStyle;
  innerHTML : option string
}.
End Sheet.

(** [a || b] on strings *)
Definition orString (a : option string) (b : string) : string :=
  match a with
  | Some x => if truthy x then x else b
  | None => b
  end.

(** The page record [handleSave] passes to [onSave]. *)
Definition handleSave (page : Page.t) (sheet : Sheet.t) (s : EditorState) : Page.t :=
  {| Page.id := Page.id page;
     Page.title := Sheet.title sheet;
     Page.date := Page.date page;
     Page.summary := Sheet.summary sheet;
     Page.content := orString (Sheet.innerHTML sheet) EmptyString;
     Page.style := Sheet.style sheet;
     Page.isBookmarked := Page.isBookmarked page;
     Page.drawingData := toDataURL <$> canvasRef (surface s);
     Page.images := Page.images page;
     Page.highlights := Some (highlights (store s)) |}.

(** The editor opened on [page]: the initial states and the mount effect.
    [body] tells whether [editorRef.current] is set when the effect runs. *)
Definition openPage (dark : bool) (page : Page.t) (canvas : option Canvas)
    (has2d : bool) (body : bool) : EditorState * Sheet.t :=
  (mount dark (Page.drawingData page) (Page.highlights page) canvas has2d,
   {| Sheet.title := Page.title page;
      Sheet.summary := Page.summary page;
      Sheet.style := Page.style page;
      Sheet.innerHTML :=
        if body then Some (orString (Some (Page.content page)) EmptyString) else None |}).

(** The views of [App]. *)
Inductive View := dashboard | book | editor.

(** The state of [App]. *)
Record AppState := {
  books : list Book.t;
  currentView : View;
  activeBookId : option string;
  activePageId : option string;
  darkMode : bool
}.

Definition setBooks (l : list Book.t) (a : AppState) : AppState :=
  {| books := l; currentView := currentView a; activeBookId := activeBookId a;
     activePageId := activePageId a; darkMode := darkMode a |}.

Definition setCurrentView (v : View) (a : AppState) : AppState :=
  {| books := books a; currentView := v; activeBookId := activeBookId a;
     activePageId := activePageId a; darkMode := darkMode a |}.

Definition setActiveBookId (o : option string) (a : AppState) : AppState :=
  {| books := books a; currentView := currentView a; activeBookId := o;
     activePageId := activePageId a; darkMode := darkMode a |}.

Definition setActivePageId (o : option string) (a : AppState) : AppState :=
  {| books := books a; currentView := currentView a; activeBookId := activeBookId a;
     activePageId := o; darkMode := darkMode a |}.

(** [books.find(b => b.id === activeBookId)] *)
Definition activeBook (a : AppState) : option Book.t :=
  List.find (fun b => bool_decide (Some (Book.id b) = activeBookId a)) (books a).

(** [activeBook?.pages.find(p => p.id === activePageId)] *)
Definition activePage (a : AppState) : option Page.t :=
  activeBook a ≫= fun b =>
    List.find (fun p => bool_decide (Some (Page.id p) = activePageId a)) (Book.pages b).

Definition setPages (l : list Page.t) (updatedAt : Z) (b : Book.t) : Book.t :=
  {| Book.id := Book.id b; Book.title := Book.title b;
     Book.coverColor := Book.coverColor b; Book.isStarred := Book.isStarred b;
     Book.pages := l; Book.updatedAt := updatedAt |}.

(** [handleUpdatePage(updatedPage)]; [now i] is the value of [Date.now()]
    read for the book at position [i]. *)
Definition handleUpdatePage (now : nat -> Z) (updatedPage : Page.t) (a : AppState) : AppState :=
  match activeBookId a with
  | Some activeBookId =>
      if negb (truthy activeBookId) then a
      else
        a |> setBooks
          (imap (fun i book =>
                   if bool_decide (Book.id book = activeBookId) then
                     book |> setPages
                       (map (fun p => if bool_decide (Page.id p = Page.id updatedPage)
                                      then updatedPage else p)
                            (Book.pages book))
                       (now i)
                   else book)
                (books a))
  | None => a
  end.

(** [handleToggleStar(id)] *)
Definition handleToggleStar (id : string) (a : AppState) : AppState :=
  a |> setBooks
    (map (fun b => if bool_decide (Book.id b = id)
                   then {| Book.id := Book.id b; Book.title := Book.title b;
                           Book.coverColor := Book.coverColor b;
                           Book.isStarred := negb (Book.isStarred b);
                           Book.pages := Book.pages b;
                           Book.updatedAt := Book.updatedAt b |}
                   else b)
         (books a)).

(** [navigateToBook(id)] *)
Definition navigateToBook (id : string) (a : AppState) : AppState :=
  a |> setActiveBookId (Some id) |> setCurrentView book.

(** The page [navigateToEditor] creates; [now] and [today] are the values of
    [Date.now()] and [new Date().toLocaleDateString()]. *)
Definition newPage (now : Z) (today : string) : Page.t :=
  {| Page.id := pretty now; Page.title := "Untitled Page"; Page.date := today;
     Page.summary := EmptyString; Page.content := EmptyString; Page.style := lined;
     Page.isBookmarked := false; Page.drawingData := None; Page.images := [];
     Page.highlights := None |}.

(** [navigateToEditor(bookId, pageId?)]; [nowAt i] is the value of
    [Date.now()] read for the book at position [i]. *)
Definition navigateToEditor (now : Z) (today : string) (nowAt : nat -> Z)
    (bookId : string) (pageId : option string) (a : AppState) : AppState :=
  let a := a |> setActiveBookId (Some bookId) in
  let created :=
    a |> setBooks
           (imap (fun i b =>
                    if bool_decide (Book.id b = bookId)
                    then b |> setPages (newPage now today :: Book.pages b) (nowAt i)
                    else b)
                 (books a))
      |> setActivePageId (Some (pretty now)) in
  let a :=
    match pageId with
    | Some pageId => if truthy pageId then a |> setActivePageId (Some pageId) else created
    | None => created
    end in
  a |> setCurrentView editor.

(** [Save Note] in the editor, seen from [App]: [onSave(page)], then
    [onBack()]. *)
Definition saveAndClose (now : nat -> Z) (saved : Page.t) (a : AppState) : AppState :=
  a |> handleUpdatePage now saved |> setCurrentView book.


(** [handleUpdateBook(updatedBook)] *)
Definition handleUpdateBook (updatedBook : Book.t) (a : AppState) : AppState :=
  a |> setBooks
    (map (fun b => if bool_decide (Book.id b = Book.id updatedBook) then updatedBook else b)
         (books a)).

(** The book [toggleBookmark(id, e)] of [BookDetail] passes to
    [onUpdateBook]; [bk] is the [book] prop. *)
Definition toggleBookmark (id : string) (bk : Book.t) : Book.t :=
  {| Book.id := Book.id bk; Book.title := Book.title bk;
     Book.coverColor := Book.coverColor bk; Book.isStarred := Book.isStarred bk;
     Book.pages :=
       map (fun p => if bool_decide (Page.id p = id)
                     then {| Page.id := Page.id p; Page.title := Page.title p;
                             Page.date := Page.date p; Page.summary := Page.summary p;
                             Page.content := Page.content p; Page.style := Page.style p;
                             Page.isBookmarked := negb (Page.isBookmarked p);
                             Page.drawingData := Page.drawingData p;
                             Page.images := Page.images p;
                             Page.highlights := Page.highlights p |}
                     else p)
           (Book.pages bk);
     Book.updatedAt := Book.updatedAt bk |}.

(** A click on the bookmark of page [id]: [BookDetail] is rendered in the
    book view when there is an active book, which is its [book] prop, and
    [onUpdateBook] is [handleUpdateBook]. *)
Definition clickBookmark (id : string) (a : AppState) : AppState :=
  match currentView a, activeBook a with
  | book, Some b => handleUpdateBook (toggleBookmark id b) a
  | _, _ => a
  end.

(** The cover colours [handleCreateBook] draws from. *)
Definition COVER_COLORS : list string :=
  ["bg-blue-500"; "bg-red-500"; "bg-green-500"; "bg-amber-500"; "bg-purple-500"]%string.

(** [handleCreateBook(title)]; [now1] and [now2] are the values of its two
    [Date.now()] calls and [pick] stands for the random draw: the index
    [Math.floor(Math.random() * 5)] is [pick mod 5]. *)
Definition handleCreateBook (now1 now2 : Z) (pick : nat) (title : string)
    (a : AppState) : AppState :=
  let newBook :=
    {| Book.id := pretty now1; Book.title := title;
       Book.coverColor := default EmptyString (COVER_COLORS !! (pick mod 5)%nat);
       Book.isStarred := false; Book.pages := []; Book.updatedAt := now2 |} in
  a |> setBooks (newBook :: books a).

(** The state of [Dashboard]. *)
Record DashboardState := { showCreateModal : bool; newBookTitle : string }.

(** [handleCreate] of [Dashboard], with [onCreateBook] bound to
    [handleCreateBook]. *)
Definition handleCreate (now1 now2 : Z) (pick : nat)
    (d : DashboardState) (a : AppState) : DashboardState * AppState :=
  if truthy (trim (newBookTitle d)) then
    ({| showCreateModal := false; newBookTitle := EmptyString |},
     handleCreateBook now1 now2 pick (newBookTitle d) a)
  else (d, a).

(** *** Predicates used in the further properties *)

(** A layer stroked with the line width, opacity and blend mode of the row
    of tool [t] in the renderer table. *)
Definition tableLayer (t : ToolType) (l : Layer) : Prop :=
  exists p st, l = Stroked p st (toolLineWidth t) (toolOpacity t) (toolBlend t).


(** An image that arrives with [ev] was chosen in the render of the current
    history pointer. *)
Definition arrivesFresh (ev : Event) (s : EditorState) : Prop :=
  forall i k img, ev = UploadLoaded i -> uploads (host s) !! i = Some (k, img) ->
                  k = historyStep (stack s).

(** Along the events [evs] from [s], every image arrives fresh. *)
Fixpoint freshRun (evs : list Event) (s : EditorState) : Prop :=
  match evs with
  | [] => True
  | ev :: evs' =>
      arrivesFresh ev s /\ forall s', step ev s = Return s' -> freshRun evs' s'
  end.

(** The elements of [l] without repetition, each at its first occurrence. *)
Fixpoint firstOccurrences (l : list string) : list string :=
  match l with
  | [] => []
  | c :: l' => c :: filter (fun c' => c' <> c) (firstOccurrences l')
  end.

(** The distinct colours picked in [cs] that are not presets, the one picked
    last first. *)
Definition mostRecentFirst (cs : list string) : list string :=
  firstOccurrences (reverse (filter (fun c => c ∉ PRESET_COLORS) cs)).

(** Picking the colours [cs] one after the other. *)
Definition pickColors (cs : list string) (ts : ToolState) : ToolState :=
  foldl (fun ts c => handleSetColor c ts) ts cs.


(** *** Inputs used in the examples of the further properties *)

(** A selection inside one block: [surroundContents] accepts it. *)
Definition wrappableSelection : Selection :=
  {| rangeCount := 1; isCollapsed := false; spansBlocks := false |}.

(** The user selects [sel] in the page. *)
Definition withSelection (sel : Selection) (s : EditorState) : EditorState :=
  s |> setHost (host s |> setSelection (Some sel)).

(** The application with the sample book holding one new page, open in the
    editor. *)
Definition oneBook : AppState :=
  {| books := [{| Book.id := "1"; Book.title := "My First Journal";
                  Book.coverColor := "bg-primary"; Book.isStarred := true;
                  Book.pages := [newPage 5 "2024-01-01"]; Book.updatedAt := 0 |}];
     currentView := editor; activeBookId := Some "1"%string;
     activePageId := Some (pretty 5%Z); darkMode := false |}.
(** * Properties *)

(** ** JavaScript primitives *)

Lemma slice_from_0 {A} (l : list A) (e : Z) :
  (0 <= e)%Z -> slice l 0 e = take (Z.to_nat e) l.
Proof.
  intros He. unfold slice, clampIndex.
  replace (0 <? 0)%Z with false by reflexivity.
  replace (e <? 0)%Z with false by (symmetry; apply Z.ltb_ge; lia).
  rewrite (Z.min_l 0) by lia. rewrite Z.sub_0_r. change (Z.to_nat 0) with 0%nat. rewrite drop_0.
  destruct (Z.le_gt_cases e (Z.of_nat (length l))) as [Hle|Hgt].
  - rewrite Z.min_l by lia. reflexivity.
  - rewrite Z.min_r by lia. rewrite Nat2Z.id.
    rewrite take_ge by lia. rewrite take_ge by lia. reflexivity.
Qed.


Lemma includes_true `{EqDecision A} (l : list A) (x : A) :
  includes l x = true <-> x ∈ l.
Proof. unfold includes. apply bool_decide_eq_true. Qed.

Lemma includes_false `{EqDecision A} (l : list A) (x : A) :
  includes l x = false <-> x ∉ l.
Proof. unfold includes. apply bool_decide_eq_false. Qed.

(** ** Which part of the state each handler touches *)

Ltac frame :=
  intros;
  repeat match goal with
         | |- context [match ?x with _ => _ end] => destruct x eqn:?
         end;
  try reflexivity.

Lemma startDrawing_frame e s :
  tools (startDrawing e s) = tools s /\ stack (startDrawing e s) = stack s /\
  store (startDrawing e s) = store s /\ host (startDrawing e s) = host s.
Proof. unfold startDrawing. frame; cbn; auto. Qed.

Lemma draw_frame e s :
  tools (draw e s) = tools s /\ stroke (draw e s) = stroke s /\
  stack (draw e s) = stack s /\ store (draw e s) = store s /\
  host (draw e s) = host s.
Proof. unfold draw. frame; cbn; auto. Qed.

Lemma saveCanvasToHistory_frame k s :
  tools (saveCanvasToHistory k s) = tools s /\
  stroke (saveCanvasToHistory k s) = stroke s /\
  surface (saveCanvasToHistory k s) = surface s /\
  store (saveCanvasToHistory k s) = store s /\
  host (saveCanvasToHistory k s) = host s.
Proof. unfold saveCanvasToHistory. frame; cbn; auto. Qed.

Lemma stopDrawing_frame s :
  tools (stopDrawing s) = tools s /\ store (stopDrawing s) = store s /\
  host (stopDrawing s) = host s.
Proof.
  unfold stopDrawing. destruct (isDrawing (stroke s)); [|auto].
  destruct (saveCanvasToHistory_frame (historyStep (stack s))
    (s |> setSurface (surface s |> closePath)
       |> setStroke (stroke s |> setIsDrawing false |> setStartPos None
                              |> setSnapshot None))) as (-> & _ & _ & -> & ->).
  auto.
Qed.

Lemma restoreCanvasState_frame d s :
  tools (restoreCanvasState d s) = tools s /\
  stroke (restoreCanvasState d s) = stroke s /\
  stack (restoreCanvasState d s) = stack s /\
  store (restoreCanvasState d s) = store s.
Proof. unfold restoreCanvasState. frame; cbn; auto. Qed.

Lemma handleUndo_frame s :
  tools (handleUndo s) = tools s /\ stroke (handleUndo s) = stroke s /\
  store (handleUndo s) = store s.
Proof.
  unfold handleUndo. frame; auto.
  match goal with
  | |- context [restoreCanvasState ?d ?t] =>
      destruct (restoreCanvasState_frame d t) as (-> & -> & _ & ->)
  end. auto.
Qed.

Lemma handleRedo_frame s :
  tools (handleRedo s) = tools s /\ stroke (handleRedo s) = stroke s /\
  store (handleRedo s) = store s.
Proof.
  unfold handleRedo. frame; auto.
  match goal with
  | |- context [restoreCanvasState ?d ?t] =>
      destruct (restoreCanvasState_frame d t) as (-> & -> & _ & ->)
  end. auto.
Qed.

Lemma restoreOnload_frame i s :
  tools (restoreOnload i s) = tools s /\ stroke (restoreOnload i s) = stroke s /\
  stack (restoreOnload i s) = stack s /\ store (restoreOnload i s) = store s.
Proof. unfold restoreOnload. frame; cbn; auto. Qed.

Lemma uploadOnload_frame i s :
  tools (uploadOnload i s) = tools s /\ stroke (uploadOnload i s) = stroke s /\
  store (uploadOnload i s) = store s.
Proof.
  unfold uploadOnload. frame; auto.
  match goal with
  | |- context [saveCanvasToHistory ?k ?t] =>
      destruct (saveCanvasToHistory_frame k t) as (-> & -> & _ & -> & _)
  end. auto.
Qed.

Lemma initialOnload_frame s :
  tools (initialOnload s) = tools s /\ stroke (initialOnload s) = stroke s /\
  store (initialOnload s) = store s.
Proof. unfold initialOnload. frame; cbn; auto. Qed.

Lemma handleHighlight_frame c now s :
  tools (handleHighlight c now s) = tools s /\
  stroke (handleHighlight c now s) = stroke s /\
  surface (handleHighlight c now s) = surface s /\
  stack (handleHighlight c now s) = stack s.
Proof. unfold handleHighlight. frame; cbn; auto. Qed.

Lemma handleEditorClick_frame o s :
  tools (handleEditorClick o s) = tools s /\
  stroke (handleEditorClick o s) = stroke s /\
  surface (handleEditorClick o s) = surface s /\
  stack (handleEditorClick o s) = stack s /\
  host (handleEditorClick o s) = host s.
Proof. unfold handleEditorClick. frame; cbn; auto. Qed.

Lemma addComment_frame n1 n2 s s' :
  addComment n1 n2 s = Return s' ->
  tools s' = tools s /\ stroke s' = stroke s /\ surface s' = surface s /\
  stack s' = stack s /\ host s' = host s.
Proof.
  unfold addComment, appendComment, bind.
  intros H. repeat case_match; simplify_eq; cbn; auto.
Qed.

(** Only [handleSetColor] writes [recentColors]. *)
Lemma step_recentColors ev s s' :
  step ev s = Return s' ->
  recentColors (tools s') = recentColors (tools s) \/
  exists c, tools s' = handleSetColor c (tools s).
Proof.
  destruct ev; cbn [step]; intros H; try (injection H as <-).
  - left. reflexivity.
  - left. reflexivity.
  - right. eexists. reflexivity.
  - left. reflexivity.
  - left. f_equal. apply startDrawing_frame.
  - left. f_equal. apply draw_frame.
  - left. f_equal. apply stopDrawing_frame.
  - left. f_equal. apply handleUndo_frame.
  - left. f_equal. apply handleRedo_frame.
  - left. f_equal. apply restoreOnload_frame.
  - left. reflexivity.
  - left. f_equal. apply uploadOnload_frame.
  - left. f_equal. apply initialOnload_frame.
  - left. reflexivity.
  - left. f_equal. apply handleHighlight_frame.
  - left. f_equal. apply handleEditorClick_frame.
  - left. reflexivity.
  - left. f_equal. eapply addComment_frame; eassumption.
Qed.

(** ** Tool state: the recent-colour cache *)

Lemma handleSetColor_custom c ts :
  c ∉ PRESET_COLORS ->
  recentColors (handleSetColor c ts)
  = take 5 (c :: filter (fun c' => c' <> c) (recentColors ts)).
Proof.
  intros Hc. unfold handleSetColor. cbn [recentColors].
  apply includes_false in Hc. rewrite Hc. cbn [negb].
  rewrite slice_from_0 by lia. reflexivity.
Qed.

Lemma handleSetColor_preset c ts :
  c ∈ PRESET_COLORS -> recentColors (handleSetColor c ts) = recentColors ts.
Proof.
  intros Hc. unfold handleSetColor. cbn [recentColors].
  apply includes_true in Hc. rewrite Hc. reflexivity.
Qed.

Lemma handleSetColor_ok c ts :
  recentColorsOk (recentColors ts) -> recentColorsOk (recentColors (handleSetColor c ts)).
Proof.
  intros (Hlen & Hnd & Hpre).
  destruct (decide (c ∈ PRESET_COLORS)) as [Hin|Hout].
  - rewrite handleSetColor_preset by assumption. repeat split; assumption.
  - rewrite handleSetColor_custom by assumption.
    set (l := c :: filter (fun c' => c' <> c) (recentColors ts)).
    assert (Hl : NoDup l /\ Forall (fun c => c ∉ PRESET_COLORS) l).
    { subst l. split.
      - apply NoDup_cons. split.
        + intros Hc. apply list_elem_of_filter in Hc. destruct Hc as [Hne _].
          apply Hne. reflexivity.
        + apply NoDup_filter. assumption.
      - apply Forall_cons. split; [assumption|].
        apply Forall_forall. intros x Hx. apply list_elem_of_filter in Hx.
        destruct Hx as [_ Hx]. rewrite Forall_forall in Hpre. apply Hpre, Hx. }
    destruct Hl as [Hnd' Hpre']. repeat split.
    + rewrite length_take. lia.
    + eapply sublist_NoDup; [eassumption|apply sublist_take].
    + apply Forall_take. assumption.
Qed.

(** C6. After any sequence of events, [recentColors] has at most 5 entries,
    no duplicates and no preset colour; and [handleSetColor] with a colour
    that is not a preset removes its prior occurrence, puts it in front and
    truncates to 5. *)
Theorem recentColors_cache (s : EditorState) :
  reachable s ->
  ((length (recentColors (tools s)) <= 5)%nat /\
   NoDup (recentColors (tools s)) /\
   Forall (fun c => c ∉ PRESET_COLORS) (recentColors (tools s))) /\
  (forall c, c ∉ PRESET_COLORS ->
     let after := recentColors (handleSetColor c (tools s)) in
     after = take 5 (c :: filter (fun c' => c' <> c) (recentColors (tools s))) /\
     head after = Some c /\
     c ∉ drop 1 after).
Proof.
  intros Hr. split.
  - change (recentColorsOk (recentColors (tools s))).
    induction Hr as [dark dd ph cv h2|s ev s' Hr IH Hstep].
    + unfold recentColorsOk. cbn. split; [lia|]. split; constructor.
    + destruct (step_recentColors _ _ _ Hstep) as [->|[c ->]].
      * assumption.
      * apply handleSetColor_ok. assumption.
  - intros c Hc after. subst after. rewrite handleSetColor_custom by assumption.
    split; [reflexivity|]. split; [reflexivity|].
    cbn [take drop]. intros Hin.
    eapply elem_of_sublist in Hin; [|apply sublist_take].
    apply list_elem_of_filter in Hin. destruct Hin as [Hne _]. apply Hne. reflexivity.
Qed.

Lemma recentColors_cache_witness :
  ((length (recentColors (tools customPicks)) <= 5)%nat /\
   NoDup (recentColors (tools customPicks)) /\
   Forall (fun c => c ∉ PRESET_COLORS) (recentColors (tools customPicks))) /\
  (let after := recentColors (handleSetColor "#111111" (tools customPicks)) in
   after = take 5 ("#111111"%string
                   :: filter (fun c' => c' <> "#111111"%string)
                        (recentColors (tools customPicks))) /\
   head after = Some "#111111"%string /\
   "#111111"%string ∉ drop 1 after).
Proof.
  assert (Hr : reachable customPicks).
  { apply (reachable_step (blankPage |> (fun s => setTools (tools s |> handleSetColor "#111111") s))
                          (PickColor "#222222")); [|reflexivity].
    apply (reachable_step blankPage (PickColor "#111111")); [|reflexivity].
    apply reachable_mount. }
  destruct (recentColors_cache customPicks Hr) as [H1 H2].
  split; [exact H1|]. apply H2. apply includes_false. reflexivity.
Defined.

(** ** Coordinate mapping *)

Lemma getCoordinates_mouse canvas ctx cx cy :
  getCoordinates {| canvasRef := Some canvas; contextRef := ctx |} (MouseEvent cx cy)
  = Return
      {| offsetX := (cx - left (boundingClientRect canvas))
                    * (width canvas / rectWidth (boundingClientRect canvas));
         offsetY := (cy - top (boundingClientRect canvas))
                    * (height canvas / rectHeight (boundingClientRect canvas)) |}.
Proof. reflexivity. Qed.

Lemma getCoordinates_touch canvas ctx t ts :
  getCoordinates {| canvasRef := Some canvas; contextRef := ctx |} (TouchEvent (t :: ts))
  = Return
      {| offsetX := (clientX t - left (boundingClientRect canvas))
                    * (width canvas / rectWidth (boundingClientRect canvas));
         offsetY := (clientY t - top (boundingClientRect canvas))
                    * (height canvas / rectHeight (boundingClientRect canvas)) |}.
Proof. reflexivity. Qed.

(** [getCoordinates] in terms of the position relative to the element. *)
Lemma getCoordinates_relative canvas ctx e dx dy :
  relativePosition canvas e = Some (dx, dy) ->
  getCoordinates {| canvasRef := Some canvas; contextRef := ctx |} e
  = Return
      {| offsetX := dx * (width canvas / rectWidth (boundingClientRect canvas));
         offsetY := dy * (height canvas / rectHeight (boundingClientRect canvas)) |}.
Proof.
  destruct e as [cx cy|[|t ts]]; cbn; intros H; simplify_eq; reflexivity.
Qed.

(** C7. Doubling both the backing resolution of the canvas and its displayed
    size leaves the mapped coordinates of a pointer at the same position
    relative to the displayed element (the same offset from its top-left
    corner) unchanged. *)
Theorem getCoordinates_scale_invariant
    (canvas canvas2 : Canvas) (ctx ctx2 : option Context) (e e2 : PointerEvent) :
  rectWidth (boundingClientRect canvas) <> 0%R ->
  rectHeight (boundingClientRect canvas) <> 0%R ->
  width canvas2 = (2 * width canvas)%R ->
  height canvas2 = (2 * height canvas)%R ->
  rectWidth (boundingClientRect canvas2) = (2 * rectWidth (boundingClientRect canvas))%R ->
  rectHeight (boundingClientRect canvas2) = (2 * rectHeight (boundingClientRect canvas))%R ->
  relativePosition canvas2 e2 = relativePosition canvas e ->
  getCoordinates {| canvasRef := Some canvas2; contextRef := ctx2 |} e2
  = getCoordinates {| canvasRef := Some canvas; contextRef := ctx |} e.
Proof.
  intros Hw Hh HW HH Hrw Hrh Hrel2.
  destruct (relativePosition canvas e) as [[dx dy]|] eqn:Hrel.
  - rewrite (getCoordinates_relative _ _ _ _ _ Hrel).
    rewrite (getCoordinates_relative _ _ _ _ _ Hrel2).
    rewrite HW, HH, Hrw, Hrh. f_equal. f_equal; field; assumption.
  - destruct e as [cx cy|[|t ts]]; [discriminate| |discriminate].
    destruct e2 as [cx2 cy2|[|t2 ts2]]; [discriminate| |discriminate].
    reflexivity.
Qed.

Lemma getCoordinates_scale_invariant_witness :
  getCoordinates {| canvasRef := Some canvas200; contextRef := None |}
                 (TouchEvent [{| clientX := 30 + 7; clientY := 40 + 9 |}])
  = getCoordinates {| canvasRef := Some canvas100; contextRef := None |}
                   (MouseEvent (30 + 0) (40 + 0)).
Proof.
  apply getCoordinates_scale_invariant; cbn.
  - lra.
  - lra.
  - reflexivity.
  - reflexivity.
  - reflexivity.
  - reflexivity.
  - f_equal. f_equal; ring.
Defined.

(** C8. The mapper reads the first touch of a touch event and the client
    position of a mouse event, scales each axis by its own ratio of backing
    size to displayed size, and returns the origin, without raising, when
    there is no canvas yet. *)
Theorem getCoordinates_spec :
  (forall ctx e,
     getCoordinates {| canvasRef := None; contextRef := ctx |} e
     = Return {| offsetX := 0; offsetY := 0 |}) /\
  (forall canvas ctx t ts,
     getCoordinates {| canvasRef := Some canvas; contextRef := ctx |} (TouchEvent (t :: ts))
     = Return
         {| offsetX := (clientX t - left (boundingClientRect canvas))
                       * (width canvas / rectWidth (boundingClientRect canvas));
            offsetY := (clientY t - top (boundingClientRect canvas))
                       * (height canvas / rectHeight (boundingClientRect canvas)) |}) /\
  (forall canvas ctx cx cy,
     getCoordinates {| canvasRef := Some canvas; contextRef := ctx |} (MouseEvent cx cy)
     = Return
         {| offsetX := (cx - left (boundingClientRect canvas))
                       * (width canvas / rectWidth (boundingClientRect canvas));
            offsetY := (cy - top (boundingClientRect canvas))
                       * (height canvas / rectHeight (boundingClientRect canvas)) |}).
Proof.
  split; [|split].
  - intros ctx e. reflexivity.
  - intros. apply getCoordinates_touch.
  - intros. apply getCoordinates_mouse.
Qed.

(** ** Highlights and comments *)

(** C9. [handleHighlight] does nothing on a collapsed selection; and when
    wrapping the range fails because it spans several blocks, the failure
    goes to the console only: no marker is inserted, and the highlight map
    and the active highlight are as before. *)
Theorem handleHighlight_rejects (hColor : string) (now : Z) (s : EditorState)
    (sel : Selection) :
  selection (host s) = Some sel ->
  (isCollapsed sel = true -> handleHighlight hColor now s = s) /\
  (isCollapsed sel = false -> rangeCount sel <> 0%nat -> spansBlocks sel = true ->
     let s' := handleHighlight hColor now s in
     highlights (store s') = highlights (store s) /\
     activeHighlightId (store s') = activeHighlightId (store s) /\
     store s' = store s /\
     markers (host s') = markers (host s) /\
     console (host s')
     = console (host s) ++ ["Highlight failed: Selection spans multiple blocks"%string] /\
     tools s' = tools s /\ stroke s' = stroke s /\ surface s' = surface s /\
     stack s' = stack s).
Proof.
  intros Hsel. split.
  - intros Hc. unfold handleHighlight. rewrite Hsel, Hc.
    rewrite orb_true_r. reflexivity.
  - intros Hc Hn Hb. unfold handleHighlight. rewrite Hsel, Hc, Hb.
    apply Nat.eqb_neq in Hn. rewrite Hn. cbn. repeat split; reflexivity.
Qed.

Lemma handleHighlight_rejects_witness :
  let collapsed := blankPage |> (fun s => setHost (host s |> setSelection (Some collapsedSelection)) s) in
  let across := blankPage |> (fun s => setHost (host s |> setSelection (Some selectionAcrossBlocks)) s) in
  handleHighlight "#fef08a" 17 collapsed = collapsed /\
  (let s' := handleHighlight "#fef08a" 17 across in
   highlights (store s') = highlights (store across) /\
   activeHighlightId (store s') = activeHighlightId (store across) /\
   store s' = store across /\
   markers (host s') = markers (host across) /\
   console (host s')
   = console (host across) ++ ["Highlight failed: Selection spans multiple blocks"%string] /\
   tools s' = tools across /\ stroke s' = stroke across /\
   surface s' = surface across /\ stack s' = stack across).
Proof.
  intros collapsed across. split.
  - apply (proj1 (handleHighlight_rejects "#fef08a" 17 collapsed collapsedSelection eq_refl)).
    reflexivity.
  - apply (proj2 (handleHighlight_rejects "#fef08a" 17 across selectionAcrossBlocks eq_refl)).
    + reflexivity.
    + cbn. lia.
    + reflexivity.
Defined.


Lemma trim_empty_iff (s : string) :
  trim s = EmptyString <-> Forall (fun a => isWhiteSpace a = true) (list_ascii_of_string s).
Proof.
  unfold trim.
  assert (Hstart : forall l, trimStartList l = [] <-> Forall (fun a => isWhiteSpace a = true) l).
  { induction l as [|a l IH]; cbn.
    - split; [constructor|reflexivity].
    - destruct (isWhiteSpace a) eqn:Ha.
      + rewrite IH. split; [intros; constructor; assumption|].
        intros H. inversion H; assumption.
      + split; [discriminate|]. intros H. inversion H; congruence. }
  assert (Hnil : forall l, string_of_list_ascii l = EmptyString <-> l = []).
  { intros [|a l]; cbn; split; congruence. }
  rewrite Hnil. rewrite <- Hstart.
  split.
  - intros H. apply (f_equal reverse) in H. rewrite reverse_involutive in H.
    cbn in H. apply Hstart in H.
    destruct (trimStartList (list_ascii_of_string s)) as [|a l] eqn:E; [reflexivity|].
    exfalso.
    assert (Ha : isWhiteSpace a = false).
    { revert E. generalize (list_ascii_of_string s). induction l0 as [|b l0 IH]; cbn.
      - discriminate.
      - destruct (isWhiteSpace b) eqn:Hb; [exact IH|]. intros; simplify_eq. assumption. }
    rewrite Forall_forall in H. specialize (H a).
    rewrite H in Ha; [discriminate|]. rewrite elem_of_reverse. left.
  - intros ->. reflexivity.
Qed.


(** [addComment] returns without a change when no highlight is active or
    the text is blank. *)
Lemma addComment_guard now1 now2 s :
  activeHighlightId (store s) = None \/
  Forall (fun a => isWhiteSpace a = true) (list_ascii_of_string (newComment (store s))) ->
  addComment now1 now2 s = Return s.
Proof.
  intros [Hn|Hws]; unfold addComment.
  - rewrite Hn. reflexivity.
  - apply trim_empty_iff in Hws. rewrite Hws.
    destruct (activeHighlightId (store s)); [|reflexivity].
    rewrite orb_true_r. reflexivity.
Qed.

(** C10, at the input on which the code departs from it: the active
    identifier is not in the highlight map and the text is not blank;
    [addComment] raises instead of returning without a change. *)
Theorem addComment_dangling_raises :
  activeHighlightId (store danglingHighlight) = Some "hl_1"%string /\
  highlights (store danglingHighlight) !! "hl_1"%string = None /\
  reachable danglingHighlight /\
  addComment 1717 1717 danglingHighlight = TypeError.
Proof.
  split; [reflexivity|]. split; [reflexivity|]. split; [|reflexivity].
  apply (reachable_step (handleEditorClick (Some "hl_1"%string) blankPage)
                        (TypeComment "check this")); [|reflexivity].
  apply (reachable_step blankPage (ClickEditor (Some "hl_1"%string))); [|reflexivity].
  apply reachable_mount.
Qed.

(** ** History *)

Lemma saveCanvasToHistory_stack k s canvas :
  canvasRef (surface s) = Some canvas ->
  stack (saveCanvasToHistory k s)
  = {| history := slice (history (stack s)) 0 (k + 1) ++ [toDataURL canvas];
       historyStep := historyStep (stack s) + 1 |}.
Proof. intros Hc. unfold saveCanvasToHistory. rewrite Hc. reflexivity. Qed.

Lemma saveCanvasToHistory_no_canvas k s :
  canvasRef (surface s) = None -> saveCanvasToHistory k s = s.
Proof. intros Hc. unfold saveCanvasToHistory. rewrite Hc. reflexivity. Qed.

(** A push by the render of the current state keeps the pointer on the last
    snapshot. *)
Lemma saveCanvasToHistory_current s :
  pointerInRange (stack s) ->
  pointerInRange (stack (saveCanvasToHistory (historyStep (stack s)) s)).
Proof.
  unfold pointerInRange. intros Hr.
  destruct (canvasRef (surface s)) as [canvas|] eqn:Hc.
  - rewrite (saveCanvasToHistory_stack _ _ _ Hc). cbn [history historyStep].
    rewrite slice_from_0 by lia. rewrite length_app, length_take. cbn [length]. lia.
  - rewrite saveCanvasToHistory_no_canvas by assumption. assumption.
Qed.

Lemma restoreCanvasState_stack d s : stack (restoreCanvasState d s) = stack s.
Proof. apply restoreCanvasState_frame. Qed.

Lemma handleUndo_stack s :
  tool (tools s) <> text ->
  stack (handleUndo s)
  = {| history := history (stack s);
       historyStep := if (0 <=? historyStep (stack s))%Z
                      then historyStep (stack s) - 1 else historyStep (stack s) |}.
Proof.
  intros Ht. unfold handleUndo. destruct (decide (tool (tools s) = text)); [contradiction|].
  destruct (0 <? historyStep (stack s))%Z eqn:Hpos.
  - rewrite restoreCanvasState_stack. cbn.
    replace (0 <=? historyStep (stack s))%Z with true by (symmetry; apply Z.leb_le; lia).
    reflexivity.
  - destruct (historyStep (stack s) =? 0)%Z eqn:Hz.
    + apply Z.eqb_eq in Hz. rewrite Hz. cbn. repeat case_match; reflexivity.
    + apply Z.eqb_neq in Hz. apply Z.ltb_ge in Hpos.
      replace (0 <=? historyStep (stack s))%Z with false by (symmetry; apply Z.leb_gt; lia).
      destruct (stack s); reflexivity.
Qed.

Lemma handleRedo_stack s :
  tool (tools s) <> text ->
  stack (handleRedo s)
  = {| history := history (stack s);
       historyStep := if (historyStep (stack s) <? Z.of_nat (length (history (stack s))) - 1)%Z
                      then historyStep (stack s) + 1 else historyStep (stack s) |}.
Proof.
  intros Ht. unfold handleRedo. destruct (decide (tool (tools s) = text)); [contradiction|].
  destruct (historyStep (stack s) <? Z.of_nat (length (history (stack s))) - 1)%Z.
  - rewrite restoreCanvasState_stack. reflexivity.
  - destruct (stack s); reflexivity.
Qed.

Lemma handleUndo_text s : tool (tools s) = text -> handleUndo s = s.
Proof. intros Ht. unfold handleUndo. rewrite decide_True by assumption. reflexivity. Qed.

Lemma handleRedo_text s : tool (tools s) = text -> handleRedo s = s.
Proof. intros Ht. unfold handleRedo. rewrite decide_True by assumption. reflexivity. Qed.

(** [undo()] with the pointer at [-1] changes nothing. *)
Lemma handleUndo_at_empty s : historyStep (stack s) = (-1)%Z -> handleUndo s = s.
Proof.
  intros Hs. unfold handleUndo. rewrite Hs.
  destruct (decide (tool (tools s) = text)); reflexivity.
Qed.

(** [redo()] with the pointer on the last snapshot changes nothing. *)
Lemma handleRedo_at_last s :
  historyStep (stack s) = (Z.of_nat (length (history (stack s))) - 1)%Z -> handleRedo s = s.
Proof.
  intros Hs. unfold handleRedo. rewrite <- Hs. rewrite Z.ltb_irrefl.
  destruct (decide (tool (tools s) = text)); reflexivity.
Qed.

(** [undo()] with the pointer at [0] moves it to [-1] and blanks the surface. *)
Lemma handleUndo_at_first s canvas ctx :
  tool (tools s) <> text -> historyStep (stack s) = 0%Z ->
  canvasRef (surface s) = Some canvas -> contextRef (surface s) = Some ctx ->
  historyStep (stack (handleUndo s)) = (-1)%Z /\
  history (stack (handleUndo s)) = history (stack s) /\
  pixels (handleUndo s) = Some [].
Proof.
  intros Ht Hs Hc Hx. unfold handleUndo, pixels.
  destruct (decide (tool (tools s) = text)); [contradiction|].
  rewrite Hs. cbn. rewrite Hc, Hx. cbn. unfold clearRect, withBitmap.
  rewrite Hx, Hc. cbn. auto.
Qed.

Lemma handleUndo_pointerInRange s :
  pointerInRange (stack s) -> pointerInRange (stack (handleUndo s)).
Proof.
  intros Hr. destruct (decide (tool (tools s) = text)) as [Ht|Ht].
  - rewrite handleUndo_text by assumption. assumption.
  - rewrite handleUndo_stack by assumption. unfold pointerInRange in *. cbn.
    destruct (0 <=? historyStep (stack s))%Z eqn:E; [apply Z.leb_le in E|]; lia.
Qed.

Lemma handleRedo_pointerInRange s :
  pointerInRange (stack s) -> pointerInRange (stack (handleRedo s)).
Proof.
  intros Hr. destruct (decide (tool (tools s) = text)) as [Ht|Ht].
  - rewrite handleRedo_text by assumption. assumption.
  - rewrite handleRedo_stack by assumption. unfold pointerInRange in *. cbn.
    destruct (historyStep (stack s) <? Z.of_nat (length (history (stack s))) - 1)%Z eqn:E;
      [apply Z.ltb_lt in E|]; lia.
Qed.

Lemma stopDrawing_stack s :
  stack (stopDrawing s)
  = if isDrawing (stroke s)
    then match canvasRef (surface s) with
         | Some canvas =>
             {| history := slice (history (stack s)) 0 (historyStep (stack s) + 1)
                           ++ [toDataURL canvas];
                historyStep := historyStep (stack s) + 1 |}
         | None => stack s
         end
    else stack s.
Proof.
  unfold stopDrawing. destruct (isDrawing (stroke s)); [|reflexivity].
  unfold saveCanvasToHistory. cbn. unfold closePath, setPath, withContext. cbn.
  destruct (canvasRef (surface s)); reflexivity.
Qed.

(** Every event keeps the pointer in range, provided that an inserted image
    which arrives was chosen in the render of the current pointer. *)
Lemma step_pointerInRange ev s s' :
  pointerInRange (stack s) ->
  (forall i k img, ev = UploadLoaded i -> uploads (host s) !! i = Some (k, img) ->
                   k = historyStep (stack s)) ->
  step ev s = Return s' ->
  pointerInRange (stack s').
Proof.
  intros Hr Hfresh Hstep.
  destruct ev; cbn [step] in Hstep; try (injection Hstep as <-); try exact Hr.
  - replace (stack (startDrawing e s)) with (stack s); [exact Hr|].
    symmetry. apply startDrawing_frame.
  - replace (stack (draw e s)) with (stack s); [exact Hr|].
    symmetry. apply draw_frame.
  - rewrite stopDrawing_stack. destruct (isDrawing (stroke s)); [|exact Hr].
    destruct (canvasRef (surface s)) as [canvas|] eqn:Hc; [|exact Hr].
    rewrite <- (saveCanvasToHistory_stack _ _ _ Hc).
    apply saveCanvasToHistory_current. exact Hr.
  - apply handleUndo_pointerInRange. exact Hr.
  - apply handleRedo_pointerInRange. exact Hr.
  - replace (stack (restoreOnload i s)) with (stack s); [exact Hr|].
    symmetry. apply restoreOnload_frame.
  - unfold uploadOnload.
    destruct (uploads (host s) !! i) as [[k img]|] eqn:Hi; [|exact Hr].
    specialize (Hfresh i k img eq_refl Hi). subst k.
    destruct (contextRef _); [|exact Hr].
    match goal with
    | |- pointerInRange (stack (saveCanvasToHistory _ ?t)) =>
        change (historyStep (stack s)) with (historyStep (stack t));
        apply saveCanvasToHistory_current; exact Hr
    end.
  - unfold initialOnload. destruct (initialImage (host s)); [|exact Hr].
    cbn. unfold pointerInRange. cbn. lia.
  - replace (stack (handleHighlight hColor now s)) with (stack s); [exact Hr|].
    symmetry. apply handleHighlight_frame.
  - replace (stack (handleEditorClick hlId s)) with (stack s); [exact Hr|].
    symmetry. apply handleEditorClick_frame.
  - replace (stack s') with (stack s); [exact Hr|].
    symmetry. eapply addComment_frame; eassumption.
Qed.

Lemma run_reachable evs : forall s s', reachable s -> run evs s = Return s' -> reachable s'.
Proof.
  induction evs as [|ev evs IH]; cbn; intros s s' Hr Hrun.
  - injection Hrun as <-. assumption.
  - destruct (step ev s) as [s1|] eqn:Hstep; [|discriminate].
    cbn in Hrun. eapply IH; [|eassumption]. eapply reachable_step; eassumption.
Qed.

(** C3, at the input on which the code departs from it: an image chosen
    for insertion arrives after a stroke was completed; its callback slices
    the history with the pointer of the render that started it, and the
    pointer ends beyond the last snapshot. *)
Theorem stale_upload_leaves_pointer_out_of_range :
  exists s,
    run strokeDuringUpload blankPage = Return s /\
    reachable s /\
    length (history (stack s)) = 1%nat /\
    historyStep (stack s) = 1%Z /\
    ~ pointerInRange (stack s).
Proof.
  eexists. split; [reflexivity|]. split.
  - apply (run_reachable strokeDuringUpload blankPage); [apply reachable_mount|].
    reflexivity.
  - split; [reflexivity|]. split; [reflexivity|].
    unfold pointerInRange.
    match goal with
    | |- ~ (_ <= historyStep (stack ?t) <= Z.of_nat (length (history (stack ?t))) - 1)%Z =>
        change (historyStep (stack t)) with 1%Z;
        change (length (history (stack t))) with 1%nat
    end.
    lia.
Qed.

(** ** The canvas operations *)

Create Rewrite HintDb surface.

Lemma geometry_withContext f sf : geometry (withContext f sf) = geometry sf.
Proof. reflexivity. Qed.

Lemma geometry_withBitmap f sf : geometry (withBitmap f sf) = geometry sf.
Proof.
  unfold withBitmap, geometry. destruct (contextRef sf); [|reflexivity].
  cbn. destruct (canvasRef sf); reflexivity.
Qed.

Lemma hasContext_withContext f sf : hasContext (withContext f sf) = hasContext sf.
Proof. unfold hasContext, withContext. cbn. destruct (contextRef sf); reflexivity. Qed.

Lemma hasContext_withBitmap f sf : hasContext (withBitmap f sf) = hasContext sf.
Proof. unfold hasContext, withBitmap. destruct (contextRef sf) eqn:E; cbn; rewrite ?E; reflexivity. Qed.

Lemma canvasRef_withContext f sf : canvasRef (withContext f sf) = canvasRef sf.
Proof. reflexivity. Qed.

#[local] Hint Rewrite geometry_withContext geometry_withBitmap
  hasContext_withContext hasContext_withBitmap canvasRef_withContext : surface.

Ltac unfold_ops :=
  unfold Canvas2D.stroke, clearRect, putImageData, drawImage, beginPath, moveTo,
    lineTo, Canvas2D.rect, arc, closePath, setPath, setStrokeStyle, setFillStyle,
    setLineWidth, setGlobalAlpha, setGlobalCompositeOperation.

Lemma geometry_canvas sf c :
  canvasRef sf = Some c -> geometry sf = Some (width c, height c, boundingClientRect c).
Proof. unfold geometry. intros ->. reflexivity. Qed.

Lemma geometry_is_Some sf : is_Some (geometry sf) <-> is_Some (canvasRef sf).
Proof. unfold geometry. rewrite fmap_is_Some. reflexivity. Qed.

Lemma getCoordinates_geometry sf sf' e :
  geometry sf = geometry sf' -> getCoordinates sf e = getCoordinates sf' e.
Proof.
  unfold geometry, getCoordinates.
  destruct (canvasRef sf) as [c|], (canvasRef sf') as [c'|]; cbn; intros H;
    simplify_eq; try reflexivity.
  match goal with
  | H1 : width _ = width _, H2 : height _ = height _, H3 : boundingClientRect _ = _ |- _ =>
      rewrite H1, H2, H3
  end. reflexivity.
Qed.

Lemma paintSample_geometry ts dark st start c sf :
  geometry (paintSample ts dark st start c sf) = geometry sf /\
  hasContext (paintSample ts dark st start c sf) = hasContext sf.
Proof.
  unfold paintSample, previewPath, previewSwitch, freehandSwitch.
  repeat match goal with
         | |- context [match ?x with _ => _ end] => destruct x
         end;
    unfold_ops; autorewrite with surface; split; reflexivity.
Qed.

(** ** Strokes *)

Lemma startDrawing_surface e s :
  geometry (surface (startDrawing e s)) = geometry (surface s) /\
  hasContext (surface (startDrawing e s)) = hasContext (surface s).
Proof.
  unfold startDrawing.
  repeat match goal with
         | |- context [match ?x with _ => _ end] => destruct x
         end;
    cbn; unfold_ops; autorewrite with surface; split; reflexivity.
Qed.

Lemma startDrawing_isDrawing e s :
  tool (tools s) <> text -> isDrawing (stroke (startDrawing e s)) = true.
Proof.
  intros Ht. unfold startDrawing.
  destruct (decide (tool (tools s) = text)); [contradiction|].
  repeat match goal with
         | |- context [match ?x with _ => _ end] => destruct x
         end; reflexivity.
Qed.

Lemma draw_surface e s :
  geometry (surface (draw e s)) = geometry (surface s) /\
  hasContext (surface (draw e s)) = hasContext (surface s).
Proof.
  unfold draw.
  repeat match goal with
         | |- context [match ?x with _ => _ end] => destruct x
         end;
    try (split; reflexivity).
  cbn. apply paintSample_geometry.
Qed.

Lemma sample_frame m s :
  tools (sample m s) = tools s /\ stack (sample m s) = stack s /\
  store (sample m s) = store s /\ host (sample m s) = host s /\
  isDrawing (stroke (sample m s)) = isDrawing (stroke s) /\
  startPos (stroke (sample m s)) = startPos (stroke s) /\
  snapshot (stroke (sample m s)) = snapshot (stroke s) /\
  isShiftPressed (stroke (sample m s)) = m.1 /\
  geometry (surface (sample m s)) = geometry (surface s) /\
  hasContext (surface (sample m s)) = hasContext (surface s).
Proof.
  unfold sample.
  destruct (draw_frame m.2 (s |> setStroke (stroke s |> setIsShiftPressed m.1)))
    as (-> & -> & -> & -> & ->).
  destruct (draw_surface m.2 (s |> setStroke (stroke s |> setIsShiftPressed m.1)))
    as (-> & ->).
  repeat split; reflexivity.
Qed.


Lemma stopDrawing_surface s :
  geometry (surface (stopDrawing s)) = geometry (surface s) /\
  hasContext (surface (stopDrawing s)) = hasContext (surface s) /\
  pixels (stopDrawing s) = pixels s.
Proof.
  unfold stopDrawing, pixels. destruct (isDrawing (stroke s)); [|auto].
  match goal with
  | |- context [saveCanvasToHistory ?k ?t] =>
      destruct (saveCanvasToHistory_frame k t) as (_ & _ & -> & _ & _)
  end.
  cbn. unfold_ops. autorewrite with surface. auto.
Qed.

(** The beginning of a stroke on an initialised surface: the pixels and the
    start coordinate are captured. *)
Lemma startDrawing_inStroke e s canvas c :
  tool (tools s) <> text ->
  canvasRef (surface s) = Some canvas ->
  hasContext (surface s) = true ->
  getCoordinates (surface s) e = Return c ->
  inStroke s {| StartPos.x := offsetX c; StartPos.y := offsetY c |} (bitmap canvas)
           (startDrawing e s).
Proof.
  intros Ht Hc Hx Hco. unfold inStroke.
  destruct (startDrawing_frame e s) as (-> & -> & -> & ->).
  destruct (startDrawing_surface e s) as (-> & ->).
  rewrite startDrawing_isDrawing by assumption.
  repeat split; try reflexivity; try assumption.
  - unfold startDrawing. destruct (decide (tool (tools s) = text)); [contradiction|].
    cbn. rewrite Hco. cbn. rewrite Hc. unfold hasContext in Hx.
    destruct (contextRef (surface s)); [|discriminate].
    destruct (_ || _); reflexivity.
  - unfold startDrawing. destruct (decide (tool (tools s) = text)); [contradiction|].
    cbn. rewrite Hco. cbn. rewrite Hc. unfold hasContext in Hx.
    destruct (contextRef (surface s)); [|discriminate].
    destruct (_ || _); reflexivity.
Qed.

Lemma sample_inStroke s0 start pre m s :
  inStroke s0 start pre s -> inStroke s0 start pre (sample m s).
Proof.
  unfold inStroke. intros (Ht & Hk & Hs & Hh & Hd & Hp & Hn & Hg & Hx).
  destruct (sample_frame m s) as (-> & -> & -> & -> & -> & -> & -> & _ & -> & ->).
  repeat split; assumption.
Qed.

Lemma setIsShiftPressed_inStroke s0 start pre b s :
  inStroke s0 start pre s ->
  inStroke s0 start pre (s |> setStroke (stroke s |> setIsShiftPressed b)).
Proof. unfold inStroke. cbn. tauto. Qed.

Lemma samples_inStroke s0 start pre ms : forall s,
  inStroke s0 start pre s -> inStroke s0 start pre (samples ms s).
Proof.
  induction ms as [|m ms IH]; intros s H; [exact H|].
  change (samples (m :: ms) s) with (samples ms (sample m s)).
  apply IH, sample_inStroke, H.
Qed.

(** The preview branch of [draw]: the surface is the captured pixels and
    the one layer of the preview. *)
Lemma paintSample_preview ts dark st start c canvas ctx pre :
  snapshot st = Some pre ->
  tool ts = shape \/
  (isShiftPressed st = true /\ tool ts ∈ [fine_liner; pen; marker; highlighter]) ->
  bitmap <$> canvasRef (paintSample ts dark st start c
                          {| canvasRef := Some canvas; contextRef := Some ctx |})
  = Some (pre ++ [previewLayer ts start c]).
Proof.
  intros Hsnap Hcase. unfold paintSample. rewrite Hsnap.
  destruct ts as [t k col rc]. cbn [tool selectedShape color] in *.
  destruct Hcase as [->|[Hshift Ht]].
  - destruct k; reflexivity.
  - rewrite Hshift.
    repeat (apply elem_of_cons in Ht; destruct Ht as [->|Ht]); try reflexivity.
    inversion Ht.
Qed.

Lemma draw_preview s0 start pre s e c :
  inStroke s0 start pre s ->
  is_Some (canvasRef (surface s0)) ->
  tool (tools s0) <> text ->
  tool (tools s0) = shape \/
  (isShiftPressed (stroke s) = true /\
   tool (tools s0) ∈ [fine_liner; pen; marker; highlighter]) ->
  getCoordinates (surface s0) e = Return c ->
  pixels (draw e s) = Some (pre ++ [previewLayer (tools s0) start c]).
Proof.
  intros (Ht & Hk & Hs & Hh & Hd & Hp & Hn & Hg & Hx) Hcv0 Hnt Hcase Hco.
  unfold draw, pixels. rewrite Hd, Hp. cbn [negb].
  unfold hasContext in Hx. destruct (contextRef (surface s)) as [ctx|] eqn:Hctx; [|discriminate].
  rewrite Ht. destruct (decide (tool (tools s0) = text)); [contradiction|].
  rewrite (getCoordinates_geometry _ _ _ Hg), Hco.
  cbn [surface setSurface].
  assert (Hcv : is_Some (canvasRef (surface s))).
  { apply geometry_is_Some. rewrite Hg. apply geometry_is_Some. exact Hcv0. }
  destruct Hcv as [canvas Hcv].
  destruct (surface s) as [cv cx]. cbn in Hctx, Hcv. subst cv cx.
  apply paintSample_preview; assumption.
Qed.

(** C4. With the shape tool and the circle selected, a stroke begun at
    (10,10) and dragged to (40,10) leaves, at the release, the pixels from
    before the stroke and one circle of centre (10,10) and radius 30; the
    release pushes one snapshot of exactly that, and nothing is pushed
    while the stroke is in progress. *)
Theorem circle_stroke_commits_once
    (s : EditorState) (canvas : Canvas)
    (down last : PointerEvent) (mids : list (bool * PointerEvent)) (shift : bool) :
  tool (tools s) = shape ->
  selectedShape (tools s) = circle ->
  canvasRef (surface s) = Some canvas ->
  hasContext (surface s) = true ->
  getCoordinates (surface s) down = Return {| offsetX := 10; offsetY := 10 |} ->
  getCoordinates (surface s) last = Return {| offsetX := 40; offsetY := 10 |} ->
  let committed :=
    bitmap canvas
    ++ [Stroked [Arc 10 10 30 0 (2 * PI)] (color (tools s)) 2 1 SourceOver] in
  let begun := startDrawing down s in
  let dragged := sample (shift, last) (samples mids begun) in
  let released := stopDrawing dragged in
  (* nothing is pushed while the stroke is in progress *)
  stack begun = stack s /\
  (forall n, stack (samples (take n mids) begun) = stack s) /\
  stack dragged = stack s /\
  (* the circle is on the surface, over the pixels from before the stroke *)
  pixels dragged = Some committed /\
  pixels released = Some committed /\
  (* the release pushes one snapshot *)
  history (stack released)
  = slice (history (stack s)) 0 (historyStep (stack s) + 1) ++ [Png committed] /\
  historyStep (stack released) = (historyStep (stack s) + 1)%Z.
Proof.
  intros Htool Hshape Hcv Hctx Hdown Hlast committed begun dragged released.
  assert (Hnt : tool (tools s) <> text) by (rewrite Htool; discriminate).
  pose proof (startDrawing_inStroke down s canvas _ Hnt Hcv Hctx Hdown) as Hb.
  fold begun in Hb. cbn [offsetX offsetY] in Hb.
  pose proof (samples_inStroke _ _ _ mids _ Hb) as Hm.
  assert (Hr : sqrt ((40 - 10) * (40 - 10) + (10 - 10) * (10 - 10)) = 30%R).
  { replace ((40 - 10) * (40 - 10) + (10 - 10) * (10 - 10))%R with (30 * 30)%R by ring.
    apply sqrt_square. lra. }
  assert (Hpix : pixels dragged = Some committed).
  { unfold dragged, sample. cbn [fst snd].
    rewrite (draw_preview s {| StartPos.x := 10; StartPos.y := 10 |} (bitmap canvas)
               _ last {| offsetX := 40; offsetY := 10 |}
               (setIsShiftPressed_inStroke _ _ _ shift _ Hm)
               (ex_intro _ canvas Hcv) Hnt (or_introl Htool) Hlast).
    unfold committed, previewLayer, previewPrimitive. rewrite Htool, Hshape.
    cbn. rewrite Hr. reflexivity. }
  assert (Hd : inStroke s {| StartPos.x := 10; StartPos.y := 10 |} (bitmap canvas) dragged).
  { apply sample_inStroke. exact Hm. }
  split; [apply Hb|]. split.
  { intros n. apply (samples_inStroke _ _ _ (take n mids) _ Hb). }
  split; [apply Hd|]. split; [exact Hpix|].
  destruct (stopDrawing_surface dragged) as (_ & _ & Hrel). fold released in Hrel.
  split; [rewrite Hrel; exact Hpix|].
  unfold released. rewrite stopDrawing_stack.
  destruct Hd as (_ & Hk & _ & _ & Hdr & _). rewrite Hdr, Hk.
  unfold pixels in Hpix. destruct (canvasRef (surface dragged)) as [cv|]; [|discriminate].
  cbn in Hpix. injection Hpix as Hpix. unfold toDataURL. rewrite Hpix. split; reflexivity.
Qed.


Lemma circle_stroke_commits_once_witness :
  let committed := [Stroked [Arc 10 10 30 0 (2 * PI)] "#135bec" 2 1 SourceOver] in
  let dragged :=
    sample (false, MouseEvent 40 10)
      (samples [(false, MouseEvent 20 15)] (startDrawing (MouseEvent 10 10) shapeCircle)) in
  pixels dragged = Some committed /\
  pixels (stopDrawing dragged) = Some committed /\
  history (stack (stopDrawing dragged)) = [Png committed] /\
  historyStep (stack (stopDrawing dragged)) = 0%Z.
Proof.
  destruct (circle_stroke_commits_once shapeCircle canvas100
              (MouseEvent 10 10) (MouseEvent 40 10) [(false, MouseEvent 20 15)] false)
    as (_ & _ & _ & H1 & H2 & H3 & H4).
  - reflexivity.
  - reflexivity.
  - reflexivity.
  - reflexivity.
  - cbn; f_equal; f_equal; field.
  - cbn; f_equal; f_equal; field.
  - cbn zeta. split; [exact H1|]. split; [exact H2|]. split; [exact H3|]. exact H4.
Defined.

(** The freehand branch of [draw]: one more segment on the current path,
    stroked over what is already on the surface. *)
Lemma paintSample_freehand ts dark st start c canvas ctx :
  tool ts <> shape ->
  tool ts = eraser \/ isShiftPressed st = false ->
  bitmap <$> canvasRef (paintSample ts dark st start c
                          {| canvasRef := Some canvas; contextRef := Some ctx |})
  = Some (bitmap canvas
          ++ [Stroked (path ctx ++ [LineTo (offsetX c) (offsetY c)])
                      (if decide (tool ts = eraser)
                       then (if dark then "#1c222e" else "white")%string
                       else color ts)
                      (toolLineWidth (tool ts)) (toolOpacity (tool ts))
                      (toolBlend (tool ts))]).
Proof.
  intros Hns Hcase. unfold paintSample.
  destruct ts as [t k col rc]. cbn [tool selectedShape color] in *.
  destruct Hcase as [->|Hshift].
  - reflexivity.
  - rewrite Hshift. destruct t; try reflexivity. contradiction.
Qed.

(** C5, amended. From the beginning of a stroke on, every move sample with
    the shape tool, or with Shift held and a freehand tool other than the
    eraser, leaves on the surface the pixels captured when the stroke began
    and the single preview primitive from the start coordinate to the
    current one. *)
Theorem preview_restores_then_paints_once
    (s0 : EditorState) (canvas : Canvas) (down e : PointerEvent)
    (mids : list (bool * PointerEvent)) (shift : bool) (c0 c : Coordinates) :
  tool (tools s0) <> text ->
  canvasRef (surface s0) = Some canvas ->
  hasContext (surface s0) = true ->
  getCoordinates (surface s0) down = Return c0 ->
  getCoordinates (surface s0) e = Return c ->
  tool (tools s0) = shape \/
  (shift = true /\ tool (tools s0) ∈ [fine_liner; pen; marker; highlighter]) ->
  let start := {| StartPos.x := offsetX c0; StartPos.y := offsetY c0 |} in
  let begun := startDrawing down s0 in
  let before := samples mids begun |> (fun s => setStroke (stroke s |> setIsShiftPressed shift) s) in
  snapshot (stroke begun) = Some (bitmap canvas) /\
  startPos (stroke begun) = Some start /\
  snapshot (stroke before) = Some (bitmap canvas) /\
  pixels (draw e before) = Some (bitmap canvas ++ [previewLayer (tools s0) start c]) /\
  restoresThenPaintsOnce before e.
Proof.
  intros Hnt Hcv Hctx Hdown He Hcase start begun before.
  pose proof (startDrawing_inStroke down s0 canvas c0 Hnt Hcv Hctx Hdown) as Hb.
  fold begun start in Hb.
  pose proof (setIsShiftPressed_inStroke _ _ _ shift _
                (samples_inStroke _ _ _ mids _ Hb)) as Hm.
  fold before in Hm.
  assert (Hpix : pixels (draw e before)
                 = Some (bitmap canvas ++ [previewLayer (tools s0) start c])).
  { assert (Hcase' : tool (tools s0) = shape \/
                       (isShiftPressed (stroke before) = true /\
                        tool (tools s0) ∈ [fine_liner; pen; marker; highlighter])).
    { destruct Hcase as [H|[-> H]]; [left; exact H|right].
      split; [reflexivity|exact H]. }
    exact (draw_preview s0 start (bitmap canvas) before e c Hm
             (ex_intro _ canvas Hcv) Hnt Hcase' He). }
  split; [apply Hb|]. split; [apply Hb|]. split; [apply Hm|]. split; [exact Hpix|].
  exists (bitmap canvas), (previewLayer (tools s0) start c).
  split; [apply Hm|exact Hpix].
Qed.

Lemma preview_restores_then_paints_once_witness :
  let before :=
    samples [(true, MouseEvent 5 5)] (startDrawing (MouseEvent 1 1) penOnBlank)
      |> (fun s => setStroke (stroke s |> setIsShiftPressed true) s) in
  pixels (draw (MouseEvent 9 3) before)
  = Some ([] ++ [previewLayer (tools penOnBlank)
                   {| StartPos.x := (1 - 0) * (100 / 100); StartPos.y := (1 - 0) * (100 / 100) |}
                   {| offsetX := (9 - 0) * (100 / 100); offsetY := (3 - 0) * (100 / 100) |}]) /\
  restoresThenPaintsOnce before (MouseEvent 9 3).
Proof.
  destruct (preview_restores_then_paints_once penOnBlank canvas100
              (MouseEvent 1 1) (MouseEvent 9 3) [(true, MouseEvent 5 5)] true
              {| offsetX := (1 - 0) * (100 / 100); offsetY := (1 - 0) * (100 / 100) |}
              {| offsetX := (9 - 0) * (100 / 100); offsetY := (3 - 0) * (100 / 100) |})
    as (_ & _ & _ & H1 & H2).
  - discriminate.
  - reflexivity.
  - reflexivity.
  - reflexivity.
  - reflexivity.
  - right. split; [reflexivity|]. apply elem_of_cons. right. apply elem_of_cons. left.
    reflexivity.
  - cbn zeta. split; [exact H1|exact H2].
Defined.

(** C5 as stated fails for the eraser: with Shift held its second move
    sample leaves two layers over the captured pixels, not the captured
    pixels and one primitive. *)
Lemma eraser_with_shift_accumulates :
  reachable eraserWithShift /\
  tool (tools eraserWithShift) = eraser /\
  isDrawing (stroke eraserWithShift) = true /\
  isShiftPressed (stroke eraserWithShift) = true /\
  ~ restoresThenPaintsOnce eraserWithShift (MouseEvent 10 10).
Proof.
  split.
  { apply (run_reachable
             [SelectTool eraser; ShiftKey true; PointerDown (MouseEvent 0 0);
              PointerMove (MouseEvent 10 0)] blankPage);
      [apply reachable_mount|reflexivity]. }
  split; [reflexivity|]. split; [reflexivity|]. split; [reflexivity|].
  intros (pre & layer & Hsnap & Hpix).
  assert (Hs : snapshot (stroke eraserWithShift) = Some []) by reflexivity.
  rewrite Hs in Hsnap. injection Hsnap as <-.
  assert (Hp : length <$> pixels (draw (MouseEvent 10 10) eraserWithShift) = Some 2%nat).
  { vm_compute. reflexivity. }
  rewrite Hpix in Hp. discriminate.
Qed.

(** ** Completed strokes, undo and redo *)






(** A restore that has been applied: the surface holds the decoded
    snapshot, and nothing is left loading. *)
Lemma restore_applied d s :
  restores (host s) = [] ->
  is_Some (canvasRef (surface s)) ->
  let s' := restoreOnload 0 (restoreCanvasState (Some d) s) in
  tools s' = tools s /\ stack s' = stack s /\ restores (host s') = [] /\
  is_Some (canvasRef (surface s')) /\
  hasContext (surface s') = hasContext (surface s) /\
  (hasContext (surface s) = true -> pixels s' = Some (decode d)) /\
  (hasContext (surface s) = false -> surface s' = surface s).
Proof.
  intros Hres [canvas Hcv]. unfold restoreCanvasState, restoreOnload, hasContext, pixels.
  destruct (contextRef (surface s)) as [ctx|] eqn:Hctx; rewrite ?Hcv.
  - cbn. rewrite Hres. cbn. unfold_ops. unfold withBitmap, withContext. cbn.
    rewrite ?Hctx, ?Hcv. cbn. rewrite ?Hctx. cbn.
    repeat split; intros; try assumption; try reflexivity;
      try (eexists; reflexivity); discriminate.
  - rewrite Hres. cbn. rewrite ?Hcv, ?Hctx.
    repeat split; intros; try assumption; try reflexivity;
      try (eexists; reflexivity); discriminate.
Qed.

Lemma restoreOnload_idle i s : restores (host s) = [] -> restoreOnload i s = s.
Proof. intros H. unfold restoreOnload. rewrite H. reflexivity. Qed.

Lemma index_in_range {A} (l : list A) (i : Z) :
  (0 <= i < Z.of_nat (length l))%Z -> exists a, index l i = Some a /\ l !! Z.to_nat i = Some a.
Proof.
  intros Hi. unfold index. replace (i <? 0)%Z with false by (symmetry; apply Z.ltb_ge; lia).
  destruct (lookup_lt_is_Some_2 l (Z.to_nat i)) as [a Ha]; [lia|].
  exists a. split; assumption.
Qed.

Lemma undo_spec h ts s :
  settled h ts s -> tool ts <> text ->
  (0 <= historyStep (stack s) < Z.of_nat (length h))%Z ->
  settled h ts (undo s) /\
  historyStep (stack (undo s)) = (historyStep (stack s) - 1)%Z /\
  hasContext (surface (undo s)) = hasContext (surface s) /\
  (hasContext (surface s) = false -> surface (undo s) = surface s) /\
  (hasContext (surface s) = true -> historyStep (stack s) = 0%Z -> pixels (undo s) = Some []).
Proof.
  intros (Hh & Hts & Hres & Hcv) Ht Hstep. unfold undo, handleUndo, settled.
  rewrite Hts. destruct (decide (tool ts = text)); [contradiction|].
  destruct (0 <? historyStep (stack s))%Z eqn:Hpos.
  - apply Z.ltb_lt in Hpos.
    destruct (index_in_range (history (stack s)) (historyStep (stack s) - 1)) as (d & -> & _);
      [rewrite Hh; lia|].
    match goal with
    | |- context [restoreCanvasState _ ?t] =>
        destruct (restore_applied d t Hres Hcv) as (H1 & H2 & H3 & H4 & H5 & _ & H7)
    end.
    cbn zeta in *. rewrite H1, H2, H3, H5.
    split; [repeat split; assumption|].
    split; [reflexivity|]. split; [reflexivity|]. split; [exact H7|].
    intros _ Hz. exfalso. lia.
  - apply Z.ltb_ge in Hpos. assert (Hz : historyStep (stack s) = 0%Z) by lia.
    rewrite Hz. cbn. rewrite restoreOnload_idle.
    + destruct Hcv as [canvas Hcv]. unfold hasContext, pixels.
      destruct (contextRef (surface s)) as [ctx|] eqn:Hctx; rewrite ?Hcv; cbn.
      * unfold_ops. unfold withBitmap. rewrite ?Hctx, ?Hcv. cbn. rewrite ?Hctx.
        repeat split; intros; try assumption; try reflexivity;
          try (eexists; reflexivity); discriminate.
      * rewrite ?Hctx, ?Hcv.
        repeat split; intros; try assumption; try reflexivity;
          try (eexists; reflexivity); discriminate.
    + destruct (contextRef (surface s)), (canvasRef (surface s)); exact Hres.
Qed.

Lemma redo_spec h ts s :
  settled h ts s -> tool ts <> text ->
  (-1 <= historyStep (stack s) < Z.of_nat (length h) - 1)%Z ->
  settled h ts (redo s) /\
  historyStep (stack (redo s)) = (historyStep (stack s) + 1)%Z /\
  hasContext (surface (redo s)) = hasContext (surface s) /\
  (hasContext (surface s) = false -> surface (redo s) = surface s) /\
  (hasContext (surface s) = true ->
   (Png <$> pixels (redo s)) = h !! Z.to_nat (historyStep (stack s) + 1)).
Proof.
  intros (Hh & Hts & Hres & Hcv) Ht Hstep. unfold redo, handleRedo, settled.
  rewrite Hts. destruct (decide (tool ts = text)); [contradiction|].
  rewrite Hh. replace (historyStep (stack s) <? Z.of_nat (length h) - 1)%Z with true
    by (symmetry; apply Z.ltb_lt; lia).
  destruct (index_in_range h (historyStep (stack s) + 1)) as (d & -> & Hd); [lia|].
  match goal with
  | |- context [restoreCanvasState _ ?t] =>
      destruct (restore_applied d t Hres Hcv) as (H1 & H2 & H3 & H4 & H5 & H6 & H7)
  end.
  cbn zeta in *. rewrite H1, H2, H3, H5.
  split; [repeat split; assumption|].
  split; [reflexivity|]. split; [reflexivity|]. split; [exact H7|].
  intros Hx. rewrite Hd. rewrite (H6 Hx). cbn. destruct d; reflexivity.
Qed.







(** Restores that overlap are composed in the order in which their images
    load.  Two strokes, then two undo clicks and two redo clicks before any
    image has loaded: once the three images have loaded the pointer is back
    on the last snapshot, but the surface carries three layers, not the two
    of that snapshot. *)
Remark overlapping_restores_compose :
  let drawn := completeStrokes [penStroke; eraserStroke] blankPage in
  let raced :=
    drawn |> handleUndo |> handleUndo |> handleRedo |> handleRedo
          |> restoreOnload 0 |> restoreOnload 0 |> restoreOnload 0 in
  historyStep (stack raced) = 1%Z /\
  length (restores (host raced)) = 0%nat /\
  length <$> pixels drawn = Some 2%nat /\
  length <$> pixels raced = Some 3%nat.
Proof. vm_compute. repeat split. Qed.


(** * Further properties *)

(** ** Strokes: what the renderer paints and when *)

Lemma startDrawing_canvasRef e s :
  canvasRef (surface (startDrawing e s)) = canvasRef (surface s).
Proof.
  unfold startDrawing.
  repeat match goal with
         | |- context [match ?x with _ => _ end] => destruct x
         end; reflexivity.
Qed.

Lemma previewLayer_tableLayer ts start c : tableLayer (tool ts) (previewLayer ts start c).
Proof. unfold tableLayer, previewLayer. eexists. eexists. reflexivity. Qed.

(** What one call of [draw] does to the pixels during a stroke: nothing,
    the captured pixels and one layer, or one more layer. *)
Lemma draw_layer s0 start pre s e b :
  inStroke s0 start pre s ->
  is_Some (canvasRef (surface s0)) ->
  tool (tools s0) <> text ->
  pixels s = Some b ->
  pixels (draw e s) = Some b \/
  exists l, tableLayer (tool (tools s0)) l /\
            (pixels (draw e s) = Some (pre ++ [l]) \/ pixels (draw e s) = Some (b ++ [l])).
Proof.
  intros (Ht & Hk & Hs & Hh & Hd & Hp & Hn & Hg & Hx) Hcv0 Hnt Hb.
  unfold draw. rewrite Hd, Hp. cbn [negb].
  unfold hasContext in Hx.
  destruct (contextRef (surface s)) as [ctx|] eqn:Hctx; [|discriminate].
  rewrite Ht. destruct (decide (tool (tools s0) = text)); [contradiction|].
  destruct (getCoordinates (surface s) e) as [c|]; [|left; exact Hb].
  right. unfold pixels in *. cbn [surface setSurface].
  destruct (surface s) as [cv cx]. cbn in Hctx, Hb. subst cx.
  destruct cv as [canvas|]; [|discriminate]. cbn in Hb. injection Hb as <-.
  destruct (decide (tool (tools s0) = shape)) as [Hshape|Hshape].
  - exists (previewLayer (tools s0) start c). split; [apply previewLayer_tableLayer|].
    left. apply paintSample_preview; [exact Hn|left; exact Hshape].
  - destruct (decide (tool (tools s0) = eraser)) as [Her|Her].
    + eexists. split; [|right; apply paintSample_freehand; [exact Hshape|left; exact Her]].
      eexists. eexists. reflexivity.
    + destruct (isShiftPressed (stroke s)) eqn:Hshift.
      * exists (previewLayer (tools s0) start c). split; [apply previewLayer_tableLayer|].
        left. apply paintSample_preview; [exact Hn|right]. split; [exact Hshift|].
        destruct (tool (tools s0)); try contradiction; set_solver.
      * eexists. split; [|right; apply paintSample_freehand; [exact Hshape|right; exact Hshift]].
        eexists. eexists. reflexivity.
Qed.

Lemma samples_layers s0 start pre ms : forall s,
  inStroke s0 start pre s ->
  is_Some (canvasRef (surface s0)) ->
  tool (tools s0) <> text ->
  (exists ls, pixels s = Some (pre ++ ls) /\ Forall (tableLayer (tool (tools s0))) ls) ->
  exists ls, pixels (samples ms s) = Some (pre ++ ls) /\
             Forall (tableLayer (tool (tools s0))) ls.
Proof.
  induction ms as [|m ms IH]; intros s Hin Hcv Hnt Hls; [exact Hls|].
  change (samples (m :: ms) s) with (samples ms (sample m s)).
  apply IH; [apply sample_inStroke; exact Hin|exact Hcv|exact Hnt|].
  destruct Hls as (ls & Hpix & Hall). unfold sample.
  destruct (draw_layer s0 start pre _ m.2 (pre ++ ls)
              (setIsShiftPressed_inStroke _ _ _ m.1 _ Hin) Hcv Hnt Hpix)
    as [H|(l & Hl & [H|H])].
  - exists ls. split; assumption.
  - exists [l]. split; [exact H|]. constructor; [exact Hl|constructor].
  - exists (ls ++ [l]). split; [rewrite H, app_assoc; reflexivity|].
    apply Forall_app. split; [exact Hall|]. constructor; [exact Hl|constructor].
Qed.

(** X1. Whatever the samples of a stroke, what it leaves on the surface is
    the pixels from before the stroke and layers stroked with the line
    width, opacity and blend mode of the tool: 1, 3, 8 opaque for the
    liners, 24 at 0.35 in multiply for the highlighter, 40 in
    destination-out for the eraser, 2 for shapes. *)
Theorem stroke_layers_follow_tool_table
    (s : EditorState) (canvas : Canvas) (down : PointerEvent) (c0 : Coordinates)
    (ms : list (bool * PointerEvent)) :
  tool (tools s) <> text ->
  canvasRef (surface s) = Some canvas ->
  hasContext (surface s) = true ->
  getCoordinates (surface s) down = Return c0 ->
  exists ls,
    pixels (samples ms (startDrawing down s)) = Some (bitmap canvas ++ ls) /\
    Forall (tableLayer (tool (tools s))) ls.
Proof.
  intros Hnt Hcv Hx Hco.
  apply (samples_layers s {| StartPos.x := offsetX c0; StartPos.y := offsetY c0 |}).
  - apply startDrawing_inStroke; assumption.
  - rewrite Hcv. eexists. reflexivity.
  - exact Hnt.
  - exists []. split; [|constructor]. unfold pixels.
    rewrite startDrawing_canvasRef, Hcv, app_nil_r. reflexivity.
Qed.

Lemma stroke_layers_follow_tool_table_witness :
  exists ls,
    pixels (samples [(false, MouseEvent 5 5); (true, MouseEvent 9 3)]
              (startDrawing (MouseEvent 1 1) penOnBlank))
    = Some (bitmap (setBitmap [] canvas100) ++ ls) /\
    Forall (tableLayer (tool (tools penOnBlank))) ls.
Proof.
  apply (stroke_layers_follow_tool_table penOnBlank (setBitmap [] canvas100)
           (MouseEvent 1 1)
           {| offsetX := (1 - 0) * (100 / 100); offsetY := (1 - 0) * (100 / 100) |}).
  - discriminate.
  - reflexivity.
  - reflexivity.
  - reflexivity.
Defined.

(** X2. An ordinary freehand sample (a tool other than shape, without
    Shift, or the eraser) restores nothing: it extends the current path by
    a segment to the new coordinate and strokes the whole path over what
    is on the surface. *)
Theorem freehand_sample_extends_path
    (s : EditorState) (canvas : Canvas) (ctx : Context) (start : StartPos.t)
    (e : PointerEvent) (c : Coordinates) :
  isDrawing (stroke s) = true ->
  canvasRef (surface s) = Some canvas ->
  contextRef (surface s) = Some ctx ->
  startPos (stroke s) = Some start ->
  tool (tools s) <> text ->
  tool (tools s) <> shape ->
  tool (tools s) = eraser \/ isShiftPressed (stroke s) = false ->
  getCoordinates (surface s) e = Return c ->
  let extended := path ctx ++ [LineTo (offsetX c) (offsetY c)] in
  pixels (draw e s)
  = Some (bitmap canvas
          ++ [Stroked extended
                (if decide (tool (tools s) = eraser)
                 then (if isDarkMode (host s) then "#1c222e" else "white")%string
                 else color (tools s))
                (toolLineWidth (tool (tools s))) (toolOpacity (tool (tools s)))
                (toolBlend (tool (tools s)))]) /\
  path <$> contextRef (surface (draw e s)) = Some extended.
Proof.
  intros Hd Hcv Hctx Hp Hnt Hns Hcase Hco extended.
  unfold draw, pixels. rewrite Hd, Hctx, Hp, Hco. cbn [negb].
  destruct (decide (tool (tools s) = text)); [contradiction|].
  cbn [surface setSurface].
  destruct (surface s) as [cv cx]. cbn in Hcv, Hctx. subst cv cx.
  split; [apply paintSample_freehand; assumption|].
  unfold paintSample. destruct (tools s) as [t k col rc]. cbn [tool selectedShape color] in *.
  destruct Hcase as [->|Hshift].
  - reflexivity.
  - rewrite Hshift. destruct t; try reflexivity; contradiction.
Qed.

Lemma freehand_sample_extends_path_witness :
  let s := startDrawing (MouseEvent 1 1) penOnBlank in
  pixels (draw (MouseEvent 5 5) s)
  = Some (bitmap (setBitmap [] canvas100)
          ++ [Stroked ([MoveTo ((1 - 0) * (100 / 100)) ((1 - 0) * (100 / 100))]
                       ++ [LineTo ((5 - 0) * (100 / 100)) ((5 - 0) * (100 / 100))])
                "#135bec" 3 1 SourceOver]).
Proof.
  intros s.
  destruct (freehand_sample_extends_path s (setBitmap [] canvas100)
              {| strokeStyle := "#000000"; fillStyle := "#000000"; lineWidth := 1;
                 globalAlpha := 1; globalCompositeOperation := SourceOver;
                 path := [MoveTo ((1 - 0) * (100 / 100)) ((1 - 0) * (100 / 100))] |}
              {| StartPos.x := (1 - 0) * (100 / 100); StartPos.y := (1 - 0) * (100 / 100) |}
              (MouseEvent 5 5)
              {| offsetX := (5 - 0) * (100 / 100); offsetY := (5 - 0) * (100 / 100) |})
    as [H _].
  - reflexivity.
  - reflexivity.
  - reflexivity.
  - reflexivity.
  - discriminate.
  - discriminate.
  - right. reflexivity.
  - reflexivity.
  - exact H.
Defined.

(** X3. A release that follows a release does nothing: the pointer leaving
    the canvas after the button was released pushes no second snapshot. *)
Theorem stopDrawing_idempotent (s : EditorState) :
  stopDrawing (stopDrawing s) = stopDrawing s.
Proof.
  assert (Hd : isDrawing (stroke (stopDrawing s)) = false).
  { unfold stopDrawing. destruct (isDrawing (stroke s)) eqn:E; [|exact E].
    match goal with
    | |- context [saveCanvasToHistory ?k ?t] =>
        destruct (saveCanvasToHistory_frame k t) as (_ & -> & _)
    end.
    reflexivity. }
  unfold stopDrawing at 1. rewrite Hd. reflexivity.
Qed.

(** X4. A press and a release without a move in between leave the pixels as
    they were and still push a snapshot of them: the history grows by one
    entry equal to the surface as it was. *)
Theorem tap_pushes_unchanged_surface (s : EditorState) (canvas : Canvas) (e : PointerEvent) :
  tool (tools s) <> text ->
  canvasRef (surface s) = Some canvas ->
  let s' := stopDrawing (startDrawing e s) in
  pixels s' = pixels s /\
  history (stack s')
  = slice (history (stack s)) 0 (historyStep (stack s) + 1) ++ [Png (bitmap canvas)] /\
  historyStep (stack s') = (historyStep (stack s) + 1)%Z.
Proof.
  intros Hnt Hcv s'. subst s'.
  destruct (stopDrawing_surface (startDrawing e s)) as (_ & _ & Hp).
  assert (Hc : canvasRef (surface (startDrawing e s)) = Some canvas)
    by (rewrite startDrawing_canvasRef; exact Hcv).
  split.
  { rewrite Hp. unfold pixels. rewrite Hc, Hcv. reflexivity. }
  rewrite stopDrawing_stack, startDrawing_isDrawing by assumption.
  rewrite Hc. destruct (startDrawing_frame e s) as (_ & -> & _).
  split; reflexivity.
Qed.

Lemma tap_pushes_unchanged_surface_witness :
  let s' := stopDrawing (startDrawing (MouseEvent 3 4) penOnBlank) in
  pixels s' = pixels penOnBlank /\
  history (stack s')
  = slice (history (stack penOnBlank)) 0 (historyStep (stack penOnBlank) + 1)
    ++ [Png (bitmap (setBitmap [] canvas100))] /\
  historyStep (stack s') = (historyStep (stack penOnBlank) + 1)%Z.
Proof.
  apply (tap_pushes_unchanged_surface penOnBlank (setBitmap [] canvas100) (MouseEvent 3 4)).
  - discriminate.
  - reflexivity.
Defined.

Lemma sample_idle m s :
  isDrawing (stroke s) = false ->
  isDrawing (stroke (sample m s)) = false /\
  surface (sample m s) = surface s /\ stack (sample m s) = stack s /\
  tools (sample m s) = tools s /\ store (sample m s) = store s /\
  host (sample m s) = host s.
Proof.
  intros Hd. unfold sample, draw. cbn. rewrite Hd. cbn. auto 10.
Qed.

(** X5. Outside a stroke no move sample paints or pushes: after a release,
    whatever moves follow, with or without Shift, the surface and the
    history are those of the release. *)
Theorem moves_after_release_change_nothing (s : EditorState) (ms : list (bool * PointerEvent)) :
  let released := stopDrawing s in
  surface (samples ms released) = surface released /\
  stack (samples ms released) = stack released.
Proof.
  intros released.
  assert (Hd : isDrawing (stroke released) = false).
  { unfold released, stopDrawing. destruct (isDrawing (stroke s)) eqn:E; [|exact E].
    match goal with
    | |- context [saveCanvasToHistory ?k ?t] =>
        destruct (saveCanvasToHistory_frame k t) as (_ & -> & _)
    end.
    reflexivity. }
  revert Hd. generalize released. clear released.
  induction ms as [|m ms IH]; intros t Hd; [split; reflexivity|].
  change (samples (m :: ms) t) with (samples ms (sample m t)).
  destruct (sample_idle m t Hd) as (Hd' & Hsf & Hst & _).
  destruct (IH (sample m t) Hd') as [-> ->]. split; assumption.
Qed.



(** X7. A touch event with an empty touch list makes [getCoordinates]
    raise once the canvas exists.  [startDrawing] has then marked the
    stroke as begun and written nothing else, neither the start position
    nor the captured pixels; and [draw] on such an event changes nothing. *)
Theorem empty_touch_list_raises (s : EditorState) (canvas : Canvas) :
  canvasRef (surface s) = Some canvas ->
  getCoordinates (surface s) (TouchEvent []) = TypeError /\
  (tool (tools s) <> text ->
   startDrawing (TouchEvent []) s = (s |> setStroke (stroke s |> setIsDrawing true))) /\
  draw (TouchEvent []) s = s.
Proof.
  intros Hcv.
  assert (Hg : getCoordinates (surface s) (TouchEvent []) = TypeError).
  { unfold getCoordinates. rewrite Hcv. reflexivity. }
  split; [exact Hg|]. split.
  - intros Hnt. unfold startDrawing. destruct (decide (tool (tools s) = text)); [contradiction|].
    cbn [surface setStroke]. rewrite Hg. reflexivity.
  - unfold draw. rewrite Hg.
    repeat match goal with
           | |- context [match ?x with _ => _ end] => destruct x
           end; reflexivity.
Qed.

Lemma empty_touch_list_raises_witness :
  getCoordinates (surface penOnBlank) (TouchEvent []) = TypeError /\
  startDrawing (TouchEvent []) penOnBlank
  = (penOnBlank |> setStroke (stroke penOnBlank |> setIsDrawing true)) /\
  draw (TouchEvent []) penOnBlank = penOnBlank.
Proof.
  destruct (empty_touch_list_raises penOnBlank (setBitmap [] canvas100) eq_refl)
    as (H1 & H2 & H3).
  split; [exact H1|]. split; [apply H2; discriminate|exact H3].
Defined.

(** ** History: further properties *)

(** X8. An undo followed by a redo, each applied, gives back the history
    and the pointer, and the surface shows the snapshot the pointer is on. *)
Theorem redo_after_undo (s : EditorState) :
  tool (tools s) <> text ->
  restores (host s) = [] ->
  is_Some (canvasRef (surface s)) ->
  (0 <= historyStep (stack s) < Z.of_nat (length (history (stack s))))%Z ->
  let s' := redo (undo s) in
  history (stack s') = history (stack s) /\
  historyStep (stack s') = historyStep (stack s) /\
  restores (host s') = [] /\
  (hasContext (surface s) = true ->
   (Png <$> pixels s') = history (stack s) !! Z.to_nat (historyStep (stack s))) /\
  (hasContext (surface s) = false -> surface s' = surface s).
Proof.
  intros Ht Hres Hcv Hstep s'. subst s'.
  assert (Hset : settled (history (stack s)) (tools s) s) by (repeat split; assumption).
  destruct (undo_spec _ _ s Hset Ht Hstep) as (U1 & U2 & U3 & U4 & _).
  destruct (redo_spec _ _ (undo s) U1 Ht) as (R1 & R2 & R3 & R4 & R5); [lia|].
  split; [apply R1|]. split; [lia|]. split; [apply R1|]. split.
  - intros Hx. rewrite R5 by (rewrite U3; exact Hx). f_equal. lia.
  - intros Hx. rewrite R4 by (rewrite U3; exact Hx). apply U4. exact Hx.
Qed.

Lemma redo_after_undo_witness :
  let s := completeStrokes [penStroke; eraserStroke] blankPage in
  let s' := redo (undo s) in
  history (stack s') = history (stack s) /\
  historyStep (stack s') = historyStep (stack s) /\
  restores (host s') = [] /\
  (Png <$> pixels s') = history (stack s) !! Z.to_nat (historyStep (stack s)).
Proof.
  intros s.
  destruct (redo_after_undo s) as (H1 & H2 & H3 & H4 & _).
  - intros H. vm_compute in H. discriminate.
  - vm_compute. reflexivity.
  - vm_compute. eexists. reflexivity.
  - vm_compute. split; [discriminate|reflexivity].
  - cbn zeta. split; [exact H1|]. split; [exact H2|]. split; [exact H3|].
    apply H4. vm_compute. reflexivity.
Defined.

(** X9. An image inserted in the render of its own choice: it is pasted
    opaque at (50, 50), 200 by 200, over what is on the surface, and one
    snapshot of the result is pushed, the pointer moving onto it.  Without a
    context nothing is pasted and nothing is pushed. *)
Theorem image_insertion_pushes_once (s : EditorState) (canvas : Canvas) (img : Bitmap) :
  canvasRef (surface s) = Some canvas ->
  pointerInRange (stack s) ->
  let s' := uploadOnload (length (uploads (host s))) (handleImageUpload img s) in
  uploads (host s') = uploads (host s) /\
  (hasContext (surface s) = true ->
   let pasted := bitmap canvas ++ [Pasted img (Scaled 50 50 200 200) 1 SourceOver] in
   pixels s' = Some pasted /\
   history (stack s')
   = take (Z.to_nat (historyStep (stack s) + 1)) (history (stack s)) ++ [Png pasted] /\
   historyStep (stack s') = (Z.of_nat (length (history (stack s'))) - 1)%Z) /\
  (hasContext (surface s) = false ->
   surface s' = surface s /\ stack s' = stack s).
Proof.
  intros Hcv Hr s'. subst s'. unfold uploadOnload, handleImageUpload.
  cbn [host setHost uploads setUploads].
  rewrite lookup_app_r by lia. rewrite Nat.sub_diag. cbn [lookup list_lookup].
  cbn [host setHost uploads setUploads surface].
  rewrite delete_middle. rewrite app_nil_r.
  unfold hasContext. destruct (contextRef (surface s)) as [ctx|] eqn:Hctx.
  - split.
    { match goal with
      | |- context [saveCanvasToHistory ?k ?t] =>
          destruct (saveCanvasToHistory_frame k t) as (_ & _ & _ & _ & ->)
      end. reflexivity. }
    split; [|intros; discriminate]. intros _.
    set (pasted := bitmap canvas ++ [Pasted img (Scaled 50 50 200 200) 1 SourceOver]).
    assert (Hsf : canvasRef (surface s |> setGlobalCompositeOperation SourceOver
                                       |> setGlobalAlpha 1
                                       |> drawImage img (Scaled 50 50 200 200))
                  = Some (setBitmap pasted canvas)).
    { unfold_ops. unfold withBitmap, withContext. cbn. rewrite Hctx, Hcv. cbn.
      destruct (bitmap canvas); reflexivity. }
    split.
    { unfold pixels.
      match goal with
      | |- context [saveCanvasToHistory ?k ?t] =>
          destruct (saveCanvasToHistory_frame k t) as (_ & _ & -> & _ & _)
      end.
      cbn [surface setSurface setHost]. rewrite Hsf. reflexivity. }
    match goal with
    | |- context [saveCanvasToHistory ?k ?t] =>
        rewrite (saveCanvasToHistory_stack k t (setBitmap pasted canvas))
          by (cbn [surface setSurface setHost]; exact Hsf)
    end.
    cbn [history historyStep stack setSurface setHost]. unfold pointerInRange in Hr.
    rewrite slice_from_0 by lia. split; [reflexivity|].
    rewrite length_app, length_take. cbn [length]. lia.
  - split; [reflexivity|]. split; [intros; discriminate|]. intros _. split; reflexivity.
Qed.

Lemma image_insertion_pushes_once_witness :
  let s' := uploadOnload 0 (handleImageUpload [] penOnBlank) in
  let pasted := [Pasted [] (Scaled 50 50 200 200) 1 SourceOver] in
  pixels s' = Some pasted /\
  history (stack s') = [Png pasted] /\
  historyStep (stack s') = 0%Z.
Proof.
  destruct (image_insertion_pushes_once penOnBlank (setBitmap [] canvas100) [])
    as (_ & H & _).
  - reflexivity.
  - unfold pointerInRange. cbn. lia.
  - destruct (H eq_refl) as (H1 & H2 & H3). cbn zeta.
    split; [exact H1|]. split; [exact H2|]. vm_compute. reflexivity.
Defined.



(** ** Tool state: further properties *)

Lemma filter_ne_id (c : string) (k : list string) :
  c ∉ k -> filter (fun c' => c' <> c) k = k.
Proof.
  induction k as [|y k IH]; intros Hc; [reflexivity|].
  apply not_elem_of_cons in Hc. destruct Hc as [Hy Hk].
  rewrite filter_cons, decide_True by congruence. f_equal. apply IH, Hk.
Qed.

Lemma take_filter_take (c : string) : forall (l : list string) (n : nat),
  NoDup l ->
  take n (filter (fun c' => c' <> c) (take (S n) l))
  = take n (filter (fun c' => c' <> c) l).
Proof.
  induction l as [|x l IH]; intros n Hnd; [reflexivity|].
  apply NoDup_cons in Hnd. destruct Hnd as [Hx Hnd].
  cbn [take]. rewrite !filter_cons.
  destruct (decide (x <> c)) as [Hpx|Hpx].
  - destruct n as [|n]; [reflexivity|]. cbn [take]. f_equal. apply IH. exact Hnd.
  - assert (x = c) by (destruct (decide (x = c)); [assumption|contradiction]).
    subst x.
    rewrite (filter_ne_id c l) by exact Hx.
    rewrite (filter_ne_id c (take n l)).
    + rewrite take_take, Nat.min_id. reflexivity.
    + intros H. apply Hx. eapply elem_of_sublist; [exact H|apply sublist_take].
Qed.

Lemma firstOccurrences_NoDup l : NoDup (firstOccurrences l).
Proof.
  induction l as [|c l IH]; cbn; [constructor|].
  apply NoDup_cons. split.
  - intros H. apply list_elem_of_filter in H. destruct H as [H _]. apply H. reflexivity.
  - apply NoDup_filter. exact IH.
Qed.

(** X11. The recent colours are the custom colours picked so far, each
    once, the one picked last first, cut to five: starting from an empty
    list, after picking the colours [cs] in turn the list is
    [take 5 (mostRecentFirst cs)]. *)
Theorem recentColors_most_recent_first (ts : ToolState) (cs : list string) :
  recentColors ts = [] ->
  recentColors (pickColors cs ts) = take 5 (mostRecentFirst cs).
Proof.
  intros H0. induction cs as [|c cs IH] using rev_ind.
  - cbn. rewrite H0. reflexivity.
  - unfold pickColors in *. rewrite foldl_app. cbn [foldl].
    unfold mostRecentFirst in *. rewrite filter_app, reverse_app.
    destruct (decide (c ∈ PRESET_COLORS)) as [Hin|Hout].
    + rewrite handleSetColor_preset by exact Hin.
      rewrite filter_cons, decide_False by (intros H; apply H, Hin).
      cbn. exact IH.
    + rewrite handleSetColor_custom by exact Hout. rewrite IH.
      rewrite filter_cons, decide_True by exact Hout.
      cbn [filter reverse app firstOccurrences take]. rewrite filter_nil. cbn [reverse app].
      change (reverse [c]) with [c]. cbn [app firstOccurrences take]. f_equal.
      apply take_filter_take. apply firstOccurrences_NoDup.
Qed.

Lemma recentColors_most_recent_first_witness :
  recentColors (pickColors ["#111111"; "#222222"; "#ef4444"; "#111111"]%string (tools blankPage))
  = take 5 (mostRecentFirst ["#111111"; "#222222"; "#ef4444"; "#111111"]%string).
Proof. apply recentColors_most_recent_first. reflexivity. Defined.

(** X12. Picking the same colour twice in a row is picking it once. *)
Theorem handleSetColor_idempotent (c : string) (ts : ToolState) :
  handleSetColor c (handleSetColor c ts) = handleSetColor c ts.
Proof.
  destruct (decide (c ∈ PRESET_COLORS)) as [Hin|Hout].
  - unfold handleSetColor. cbn. apply includes_true in Hin. rewrite Hin. reflexivity.
  - pose proof (handleSetColor_custom c (handleSetColor c ts) Hout) as H2.
    pose proof (handleSetColor_custom c ts Hout) as H1.
    assert (Hr : recentColors (handleSetColor c (handleSetColor c ts))
                 = recentColors (handleSetColor c ts)).
    { rewrite H2, H1. cbn [take].
      rewrite filter_cons, decide_False by (intros H; apply H; reflexivity).
      f_equal. rewrite filter_ne_id.
      - rewrite take_take, Nat.min_id. reflexivity.
      - intros H. eapply elem_of_sublist in H; [|apply sublist_take].
        apply list_elem_of_filter in H. destruct H as [H _]. apply H. reflexivity. }
    unfold handleSetColor in *. cbn in *. f_equal. exact Hr.
Qed.

(** ** Coordinate mapping: further properties *)



(** ** Highlights and comments: further properties *)

Lemma highlight_id_inj (t1 t2 : Z) :
  ("hl_" +:+ pretty t1)%string = ("hl_" +:+ pretty t2)%string -> t1 = t2.
Proof. intros H. apply String.app_inj in H. apply (inj pretty) in H. exact H. Qed.


(** X14. The identifier of a highlight is the clock: creating a highlight
    keeps every highlight created at another clock value as it is, with its
    comments; created at the clock value of an existing highlight it takes
    its place, and the comments of that one are gone. *)
Theorem highlight_identifier_is_the_clock
    (hColor : string) (now : Z) (s : EditorState) (sel : Selection) :
  selection (host s) = Some sel ->
  isCollapsed sel = false -> rangeCount sel <> 0%nat -> spansBlocks sel = false ->
  let s' := handleHighlight hColor now s in
  (forall t, t <> now ->
     highlights (store s') !! ("hl_" +:+ pretty t)%string
     = highlights (store s) !! ("hl_" +:+ pretty t)%string) /\
  highlights (store s') !! ("hl_" +:+ pretty now)%string
  = Some {| Highlight.id := ("hl_" +:+ pretty now)%string; Highlight.color := hColor;
            Highlight.comments := [] |} /\
  activeHighlightId (store s') = Some ("hl_" +:+ pretty now)%string /\
  size (highlights (store s'))
  = match highlights (store s) !! ("hl_" +:+ pretty now)%string with
    | Some _ => size (highlights (store s))
    | None => S (size (highlights (store s)))
    end.
Proof.
  intros Hsel Hc Hn Hb s'. subst s'. unfold handleHighlight. rewrite Hsel, Hc, Hb.
  apply Nat.eqb_neq in Hn. rewrite Hn. cbn. split; [|split; [|split]].
  - intros t Ht. apply lookup_insert_ne. intros E. apply highlight_id_inj in E. congruence.
  - apply lookup_insert_eq.
  - reflexivity.
  - rewrite map_size_insert. destruct (highlights (store s) !! _); reflexivity.
Qed.

Lemma highlight_identifier_is_the_clock_witness :
  let s := withSelection wrappableSelection
             (handleHighlight "#fef08a" 17 (withSelection wrappableSelection blankPage)) in
  let s' := handleHighlight "#bbf7d0" 18 s in
  highlights (store s') !! ("hl_" +:+ pretty 17%Z)%string
  = highlights (store s) !! ("hl_" +:+ pretty 17%Z)%string /\
  highlights (store s') !! ("hl_" +:+ pretty 18%Z)%string
  = Some {| Highlight.id := ("hl_" +:+ pretty 18%Z)%string; Highlight.color := "#bbf7d0";
            Highlight.comments := [] |} /\
  size (highlights (store s')) = 2%nat.
Proof.
  intros s.
  destruct (highlight_identifier_is_the_clock "#bbf7d0" 18 s wrappableSelection)
    as (H1 & H2 & _ & H4).
  - reflexivity.
  - reflexivity.
  - cbn. lia.
  - reflexivity.
  - cbn zeta. split; [apply H1; lia|]. split; [exact H2|]. rewrite H4. reflexivity.
Defined.



Lemma step_store ev s s' :
  step ev s = Return s' ->
  store s' = store s \/
  (exists c now, ev = ClickHighlight c now /\ s' = handleHighlight c now s) \/
  (exists o, ev = ClickEditor o /\ s' = handleEditorClick o s) \/
  (exists txt, ev = TypeComment txt /\ s' = (s |> setStore (store s |> setNewComment txt))) \/
  (exists n1 n2, ev = PostComment n1 n2 /\ addComment n1 n2 s = Return s').
Proof.
  destruct ev; cbn [step]; intros H; try (injection H as <-).
  - left. reflexivity.
  - left. reflexivity.
  - left. reflexivity.
  - left. reflexivity.
  - left. apply startDrawing_frame.
  - left. apply draw_frame.
  - left. apply stopDrawing_frame.
  - left. apply handleUndo_frame.
  - left. apply handleRedo_frame.
  - left. apply restoreOnload_frame.
  - left. reflexivity.
  - left. apply uploadOnload_frame.
  - left. apply initialOnload_frame.
  - left. reflexivity.
  - right. left. eauto.
  - right. right. left. eauto.
  - right. right. right. left. eauto.
  - right. right. right. right. eauto.
Qed.

Lemma handleHighlight_highlights c now s :
  highlights (store (handleHighlight c now s)) = highlights (store s) \/
  highlights (store (handleHighlight c now s))
  = <[("hl_" +:+ pretty now)%string :=
        {| Highlight.id := ("hl_" +:+ pretty now)%string; Highlight.color := c;
           Highlight.comments := [] |}]> (highlights (store s)) /\
  activeHighlightId (store (handleHighlight c now s)) = Some ("hl_" +:+ pretty now)%string.
Proof.
  unfold handleHighlight.
  repeat match goal with
         | |- context [match ?x with _ => _ end] => destruct x
         end; cbn; auto.
Qed.


Lemma addComment_highlights n1 n2 s s' :
  addComment n1 n2 s = Return s' ->
  activeHighlightId (store s') = activeHighlightId (store s) /\
  forall id h, highlights (store s) !! id = Some h ->
    exists h', highlights (store s') !! id = Some h' /\
               Highlight.id h' = Highlight.id h /\
               Highlight.color h' = Highlight.color h /\
               Highlight.comments h `prefix_of` Highlight.comments h'.
Proof.
  unfold addComment, appendComment, bind. intros H.
  assert (Hsame : forall id h, highlights (store s) !! id = Some h ->
            exists h', highlights (store s) !! id = Some h' /\
                       Highlight.id h' = Highlight.id h /\
                       Highlight.color h' = Highlight.color h /\
                       Highlight.comments h `prefix_of` Highlight.comments h').
  { intros id h Hh. exists h. repeat split; try assumption. reflexivity. }
  destruct (activeHighlightId (store s)) as [a|] eqn:Ha; [|simplify_eq; rewrite Ha; auto].
  destruct (_ || _); [simplify_eq; rewrite Ha; auto|].
  destruct (highlights (store s) !! a) as [ha|] eqn:Hha; [|discriminate].
  injection H as <-. cbn. split; [exact Ha|]. intros id h Hh.
  destruct (decide (id = a)) as [->|Hne].
  - rewrite lookup_insert_eq. eexists. split; [reflexivity|]. cbn.
    rewrite Hha in Hh. injection Hh as <-. repeat split. apply prefix_app_r. reflexivity.
  - rewrite lookup_insert_ne by congruence. exists h. repeat split; try assumption. reflexivity.
Qed.

(** X16. No event removes a highlight, and the comments of a highlight are
    only ever extended at the end: after any event every highlight is still
    in the map with the thread it had as a prefix of its thread, unless the
    event is the creation of a highlight under that very identifier. *)
Theorem threads_only_grow (ev : Event) (s s' : EditorState) (id : string) (h : Highlight.t) :
  step ev s = Return s' ->
  highlights (store s) !! id = Some h ->
  exists h',
    highlights (store s') !! id = Some h' /\
    ((exists c now, ev = ClickHighlight c now /\ id = ("hl_" +:+ pretty now)%string) \/
     (Highlight.id h' = Highlight.id h /\
      Highlight.color h' = Highlight.color h /\
      Highlight.comments h `prefix_of` Highlight.comments h')).
Proof.
  intros Hstep Hh.
  assert (Hkeep : forall m, m = highlights (store s) ->
            exists h', m !! id = Some h' /\
              ((exists c now, ev = ClickHighlight c now /\ id = ("hl_" +:+ pretty now)%string) \/
               (Highlight.id h' = Highlight.id h /\
                Highlight.color h' = Highlight.color h /\
                Highlight.comments h `prefix_of` Highlight.comments h'))).
  { intros m ->. exists h. split; [exact Hh|]. right. repeat split. reflexivity. }
  destruct (step_store ev s s' Hstep)
    as [E|[(c & now & -> & ->)|[(o & -> & ->)|[(txt & -> & ->)|(n1 & n2 & -> & Hadd)]]]].
  - apply Hkeep. rewrite E. reflexivity.
  - destruct (handleHighlight_highlights c now s) as [E|[E _]]; [apply Hkeep; exact E|].
    rewrite E. destruct (decide (id = ("hl_" +:+ pretty now)%string)) as [->|Hne].
    + rewrite lookup_insert_eq. eexists. split; [reflexivity|]. left. eauto.
    + rewrite lookup_insert_ne by congruence. exists h. split; [exact Hh|].
      right. repeat split. reflexivity.
  - apply Hkeep. unfold handleEditorClick.
    repeat match goal with
           | |- context [match ?x with _ => _ end] => destruct x
           end; reflexivity.
  - apply Hkeep. reflexivity.
  - destruct (addComment_highlights n1 n2 s s' Hadd) as [_ H].
    destruct (H id h Hh) as (h' & H1 & H2). exists h'. split; [exact H1|right; exact H2].
Qed.

Lemma threads_only_grow_witness :
  exists h',
    highlights (store (handleEditorClick None
                         (handleHighlight "#fef08a" 17 (withSelection wrappableSelection blankPage))))
      !! ("hl_" +:+ pretty 17%Z)%string = Some h' /\
    ((exists c now, ClickEditor None = ClickHighlight c now /\
                    ("hl_" +:+ pretty 17%Z)%string = ("hl_" +:+ pretty now)%string) \/
     (Highlight.id h' = ("hl_" +:+ pretty 17%Z)%string /\
      Highlight.color h' = "#fef08a"%string /\
      [] `prefix_of` Highlight.comments h')).
Proof.
  apply (threads_only_grow (ClickEditor None)
           (handleHighlight "#fef08a" 17 (withSelection wrappableSelection blankPage))
           _ ("hl_" +:+ pretty 17%Z)%string
           {| Highlight.id := ("hl_" +:+ pretty 17%Z)%string; Highlight.color := "#fef08a";
              Highlight.comments := [] |}).
  - reflexivity.
  - reflexivity.
Defined.



(** ** Saving and the application around the editor *)

Lemma orString_default (a : option string) : orString a EmptyString = default EmptyString a.
Proof.
  destruct a as [x|]; [|reflexivity]. unfold orString, truthy. cbn.
  destruct (bool_decide (x = EmptyString)) eqn:E; [|reflexivity].
  apply bool_decide_eq_true in E. subst x. reflexivity.
Qed.

(** X18. Saving a page and opening it again gives back the drawing and the
    highlights: on a canvas at least as large as the one saved from, once
    the saved drawing has loaded, the surface holds the pixels that were
    saved and the highlight map is the one that was saved; title, summary,
    style and text body are those of the sheet.  The undo history is not
    kept: the saved drawing is the only snapshot, no highlight is active
    and the tool is the text tool. *)
Theorem save_then_open_restores
    (page : Page.t) (sheet : Sheet.t) (s : EditorState) (canvas canvas' : Canvas)
    (dark : bool) :
  canvasRef (surface s) = Some canvas ->
  (width canvas <= width canvas')%R ->
  (height canvas <= height canvas')%R ->
  let saved := handleSave page sheet s in
  let opened := openPage dark saved (Some canvas') true true in
  let loaded := initialOnload opened.1 in
  pixels loaded = Some (bitmap canvas) /\
  highlights (store loaded) = highlights (store s) /\
  stack loaded = {| history := [toDataURL canvas]; historyStep := 0 |} /\
  Sheet.title opened.2 = Sheet.title sheet /\
  Sheet.summary opened.2 = Sheet.summary sheet /\
  Sheet.style opened.2 = Sheet.style sheet /\
  Sheet.innerHTML opened.2 = Some (default EmptyString (Sheet.innerHTML sheet)) /\
  Page.id saved = Page.id page /\
  activeHighlightId (store loaded) = None /\
  tool (tools loaded) = text.
Proof.
  intros Hcv _ _ saved opened loaded.
  subst loaded opened saved. unfold openPage, handleSave. cbn [fst snd Page.drawingData
    Page.highlights Page.title Page.summary Page.style Page.content Page.id
    Sheet.title Sheet.summary Sheet.style Sheet.innerHTML].
  rewrite Hcv. cbn [fmap option_fmap option_map].
  repeat split.
  cbn [Sheet.innerHTML]. f_equal. rewrite !orString_default. reflexivity.
Qed.

Lemma save_then_open_restores_witness :
  let drawn := completeStroke penStroke blankPage in
  let page := newPage 1717 "2024-01-01" in
  let sheet := {| Sheet.title := "Notes"; Sheet.summary := "S"; Sheet.style := grid;
                  Sheet.innerHTML := Some "<p>text</p>"%string |} in
  let opened := openPage false (handleSave page sheet drawn) (Some canvas100) true true in
  exists c,
    canvasRef (surface drawn) = Some c /\
    pixels (initialOnload opened.1) = Some (bitmap c) /\
    highlights (store (initialOnload opened.1)) = highlights (store drawn) /\
    Sheet.innerHTML opened.2 = Some "<p>text</p>"%string.
Proof.
  intros drawn page sheet.
  assert (Hc : canvasRef (surface drawn)
               = Some (setBitmap (default [] (pixels drawn)) canvas100)).
  { vm_compute. reflexivity. }
  destruct (save_then_open_restores page sheet drawn _ canvas100 false Hc)
    as (H1 & H2 & _ & _ & _ & _ & H7 & _).
  { cbn [width setBitmap]. apply Rle_refl. }
  { cbn [height setBitmap]. apply Rle_refl. }
  cbn zeta. eexists. split; [exact Hc|]. split; [exact H1|]. split; [exact H2|exact H7].
Defined.

Lemma find_imap {A} (P : A -> bool) (f : nat -> A -> A) :
  forall (l : list A) (b : A),
    (forall i x, P (f i x) = P x) ->
    List.find P l = Some b ->
    exists i, l !! i = Some b /\ List.find P (imap f l) = Some (f i b).
Proof.
  intros l. revert f. induction l as [|x l IH]; intros f b HP Hf; [discriminate|].
  cbn [List.find imap] in *. rewrite HP. destruct (P x) eqn:E.
  - injection Hf as <-. exists 0%nat. split; reflexivity.
  - destruct (IH (f ∘ S) b) as (i & Hi & Hfi); [intros; apply HP|exact Hf|].
    exists (S i). split; [exact Hi|exact Hfi].
Qed.

Lemma find_imap_None {A} (P : A -> bool) (f : nat -> A -> A) :
  forall (l : list A),
    (forall i x, P (f i x) = P x) ->
    List.find P l = None -> List.find P (imap f l) = None.
Proof.
  intros l. revert f. induction l as [|x l IH]; intros f HP Hf; [reflexivity|].
  cbn [List.find imap] in *. rewrite HP. destruct (P x); [discriminate|].
  apply IH; [intros; apply HP|exact Hf].
Qed.

Lemma find_replaced (saved : Page.t) :
  forall (l : list Page.t) (p : Page.t),
    List.find (fun q => bool_decide (Some (Page.id q) = Some (Page.id saved))) l = Some p ->
    List.find (fun q => bool_decide (Some (Page.id q) = Some (Page.id saved)))
      (map (fun q => if bool_decide (Page.id q = Page.id saved) then saved else q) l)
    = Some saved.
Proof.
  induction l as [|x l IH]; intros p Hf; [discriminate|].
  cbn [List.find map] in *.
  destruct (decide (Page.id x = Page.id saved)) as [E|E].
  - rewrite (bool_decide_eq_true_2 _ E).
    rewrite bool_decide_eq_true_2 by reflexivity. reflexivity.
  - rewrite (bool_decide_eq_false_2 _ E).
    rewrite bool_decide_eq_false_2 in Hf by congruence.
    rewrite bool_decide_eq_false_2 by congruence. eapply IH. exact Hf.
Qed.

Lemma find_id {A} (f : A -> string) (k : string) (l : list A) (x : A) :
  List.find (fun y => bool_decide (Some (f y) = Some k)) l = Some x -> f x = k.
Proof.
  intros H. apply List.find_some in H. destruct H as [_ H].
  apply bool_decide_eq_true in H. congruence.
Qed.

Lemma find_none_id {A} (f : A -> string) (k : string) (l : list A) (i : nat) (x : A) :
  List.find (fun y => bool_decide (Some (f y) = Some k)) l = None ->
  l !! i = Some x -> f x <> k.
Proof.
  intros H Hx E. pose proof (List.find_none _ _ H x) as Hf. cbn beta in Hf.
  rewrite bool_decide_eq_true_2 in Hf by congruence.
  assert (true = false); [|discriminate].
  apply Hf. apply list_elem_of_In, list_elem_of_lookup. eauto.
Qed.

(** X19. After [Save Note] the page shown by the application is the saved
    record: with an active book and an active page, saving a record with
    the identifier of the active page makes it the active page, returns to
    the book view, and leaves every book other than the active one as it
    was, at its place. *)
Theorem saved_page_becomes_active_page
    (now : nat -> Z) (saved p : Page.t) (bid : string) (a : AppState) :
  activeBookId a = Some bid ->
  truthy bid = true ->
  activePage a = Some p ->
  Page.id saved = Page.id p ->
  let a' := saveAndClose now saved a in
  activePage a' = Some saved /\
  currentView a' = book /\
  length (books a') = length (books a) /\
  (forall i b, books a !! i = Some b -> Book.id b <> bid -> books a' !! i = Some b).
Proof.
  intros Hbid Htr Hpage Hid a'. subst a'.
  unfold saveAndClose, handleUpdatePage. rewrite Hbid, Htr. cbn [negb].
  unfold activePage, activeBook in *.
  cbn [books setBooks setCurrentView activeBookId activePageId].
  rewrite Hbid in *.
  destruct (List.find (fun b => bool_decide (Some (Book.id b) = Some bid)) (books a))
    as [b|] eqn:Hb; [|discriminate].
  cbn [mbind option_bind] in Hpage.
  set (f := fun (i : nat) (bk : Book.t) =>
              if bool_decide (Book.id bk = bid)
              then bk |> setPages
                     (map (fun q => if bool_decide (Page.id q = Page.id saved)
                                    then saved else q) (Book.pages bk)) (now i)
              else bk).
  destruct (find_imap (fun b => bool_decide (Some (Book.id b) = Some bid)) f (books a) b)
    as (i & Hi & Hfi); [|exact Hb|].
  { intros j x. unfold f. destruct (bool_decide (Book.id x = bid)); reflexivity. }
  split.
  { rewrite Hfi. cbn [mbind option_bind].
    pose proof (find_id _ _ _ _ Hb) as Eb.
    unfold f. rewrite (bool_decide_eq_true_2 _ Eb). cbn [Book.pages setPages].
    destruct (activePageId a) as [pid|] eqn:Hpid.
    - pose proof (find_id _ _ _ _ Hpage) as Ep.
      assert (pid = Page.id saved) as -> by congruence.
      eapply find_replaced. exact Hpage.
    - apply List.find_some in Hpage. destruct Hpage as [_ Hp].
      apply bool_decide_eq_true in Hp. discriminate. }
  split; [reflexivity|]. split; [apply length_imap|].
  intros j bk Hj Hne. rewrite list_lookup_imap, Hj. cbn. unfold f.
  rewrite bool_decide_eq_false_2 by exact Hne. reflexivity.
Qed.

Lemma saved_page_becomes_active_page_witness :
  let saved := handleSave (newPage 5 "2024-01-01")
                 {| Sheet.title := "Notes"; Sheet.summary := "S"; Sheet.style := grid;
                    Sheet.innerHTML := Some "<p>text</p>"%string |} blankPage in
  activePage (saveAndClose (fun _ => 9%Z) saved oneBook) = Some saved /\
  currentView (saveAndClose (fun _ => 9%Z) saved oneBook) = book.
Proof.
  intros saved.
  destruct (saved_page_becomes_active_page (fun _ => 9%Z) saved (newPage 5 "2024-01-01")
              "1" oneBook) as (H1 & H2 & _).
  - reflexivity.
  - reflexivity.
  - reflexivity.
  - reflexivity.
  - split; [exact H1|exact H2].
Defined.

(** X20. Saving with no active book changes no book: the record passed to
    [onSave] is dropped, whatever it is. *)
Theorem save_without_active_book_is_dropped
    (now : nat -> Z) (saved : Page.t) (a : AppState) :
  activeBook a = None ->
  books (saveAndClose now saved a) = books a.
Proof.
  intros Hb. unfold saveAndClose, handleUpdatePage, activeBook in *.
  destruct (activeBookId a) as [bid|] eqn:Hbid; [|reflexivity].
  destruct (truthy bid); [|reflexivity]. cbn [negb books setBooks setCurrentView].
  apply list_eq. intros i. rewrite list_lookup_imap.
  destruct (books a !! i) as [x|] eqn:Hx; [|reflexivity]. cbn.
  rewrite bool_decide_eq_false_2; [reflexivity|].
  eapply find_none_id; [exact Hb|exact Hx].
Qed.

Lemma save_without_active_book_is_dropped_witness :
  books (saveAndClose (fun _ => 9%Z) (newPage 5 "2024-01-01")
           (oneBook |> setActiveBookId (Some "2"%string)))
  = books oneBook.
Proof.
  apply (save_without_active_book_is_dropped (fun _ => 9%Z) (newPage 5 "2024-01-01")
           (oneBook |> setActiveBookId (Some "2"%string))).
  reflexivity.
Defined.

(** X21. Opening the editor without a page identifier creates a page: when
    the book exists, a blank untitled page is put in front of its pages and
    is the page the editor shows; the number of books does not change. *)
Theorem new_page_opens_in_editor
    (now : Z) (today : string) (nowAt : nat -> Z) (bookId : string) (a : AppState)
    (b : Book.t) :
  List.find (fun b => bool_decide (Some (Book.id b) = Some bookId)) (books a) = Some b ->
  let created := navigateToEditor now today nowAt bookId None a in
  currentView created = editor /\
  activePage created = Some (newPage now today) /\
  (Book.pages <$> activeBook created) = Some (newPage now today :: Book.pages b) /\
  length (books created) = length (books a).
Proof.
  intros Hb created. subst created. unfold navigateToEditor.
  set (f := fun (i : nat) (b : Book.t) =>
              if bool_decide (Book.id b = bookId)
              then b |> setPages (newPage now today :: Book.pages b) (nowAt i) else b).
  assert (HP : forall i x, bool_decide (Some (Book.id (f i x)) = Some bookId)
                           = bool_decide (Some (Book.id x) = Some bookId)).
  { intros i x. unfold f. destruct (bool_decide (Book.id x = bookId)); reflexivity. }
  split; [reflexivity|].
  unfold activePage, activeBook.
  cbn [books setBooks setCurrentView setActiveBookId setActivePageId activeBookId
       activePageId].
  destruct (find_imap _ f (books a) b HP Hb) as (i & _ & Hfi). rewrite Hfi.
  pose proof (find_id _ _ _ _ Hb) as Eb.
  unfold f. rewrite (bool_decide_eq_true_2 _ Eb). cbn.
  rewrite bool_decide_eq_true_2 by reflexivity.
  split; [reflexivity|]. split; [reflexivity|]. apply length_imap.
Qed.

Lemma new_page_opens_in_editor_witness :
  activePage (navigateToEditor 6 "2024-01-02" (fun _ => 7%Z) "1" None oneBook)
  = Some (newPage 6 "2024-01-02").
Proof.
  refine (proj1 (proj2 (new_page_opens_in_editor 6 "2024-01-02" (fun _ => 7%Z) "1"
                          oneBook _ _))).
  reflexivity.
Defined.

(** X22. Opening the editor for a book identifier no book has creates
    nothing: the books are unchanged, and the editor view has no page to
    show. *)
Theorem navigateToEditor_unknown_book
    (now : Z) (today : string) (nowAt : nat -> Z) (bookId : string)
    (pageId : option string) (a : AppState) :
  List.find (fun b => bool_decide (Some (Book.id b) = Some bookId)) (books a) = None ->
  let opened := navigateToEditor now today nowAt bookId pageId a in
  books opened = books a /\ currentView opened = editor /\ activePage opened = None.
Proof.
  intros Hb opened. subst opened. unfold navigateToEditor.
  set (f := fun (i : nat) (b : Book.t) =>
              if bool_decide (Book.id b = bookId)
              then b |> setPages (newPage now today :: Book.pages b) (nowAt i) else b).
  assert (Hsame : imap f (books a) = books a).
  { apply list_eq. intros i. rewrite list_lookup_imap.
    destruct (books a !! i) as [x|] eqn:Hx; [|reflexivity]. cbn. unfold f.
    rewrite bool_decide_eq_false_2; [reflexivity|].
    eapply find_none_id; [exact Hb|exact Hx]. }
  cbn [books setActiveBookId]. rewrite Hsame.
  assert (Hnone : forall o v,
            activePage (a |> setActiveBookId (Some bookId) |> setActivePageId o
                          |> setCurrentView v) = None).
  { intros o v. unfold activePage, activeBook. cbn. rewrite Hb. reflexivity. }
  destruct pageId as [pid|]; [destruct (truthy pid)|];
    (split; [reflexivity|split; [reflexivity|]]);
    apply Hnone.
Qed.

Lemma navigateToEditor_unknown_book_witness :
  books (navigateToEditor 6 "2024-01-02" (fun _ => 7%Z) "2" None oneBook) = books oneBook.
Proof.
  refine (proj1 (navigateToEditor_unknown_book 6 "2024-01-02" (fun _ => 7%Z) "2" None
                   oneBook _)).
  reflexivity.
Defined.

(** X23. Starring is an involution: toggling the star of a book twice gives
    back the state of the application. *)
Theorem handleToggleStar_involutive (id : string) (a : AppState) :
  handleToggleStar id (handleToggleStar id a) = a.
Proof.
  destruct a as [bs v ab ap dm]. unfold handleToggleStar, setBooks. cbn. f_equal.
  rewrite map_map. induction bs as [|b bs IH]; [reflexivity|].
  cbn [map]. rewrite IH. f_equal.
  destruct (decide (Book.id b = id)) as [E|E].
  - rewrite (bool_decide_eq_true_2 _ E). cbn. rewrite (bool_decide_eq_true_2 _ E).
    destruct b. cbn. rewrite negb_involutive. reflexivity.
  - rewrite (bool_decide_eq_false_2 _ E). rewrite (bool_decide_eq_false_2 _ E). reflexivity.
Qed.

(** X24. A book title made of white space only creates no book: the books
    and the dialog stay as they are. *)
Theorem handleCreate_blank_title
    (now1 now2 : Z) (pick : nat) (d : DashboardState) (a : AppState) :
  Forall (fun c => isWhiteSpace c = true) (list_ascii_of_string (newBookTitle d)) ->
  handleCreate now1 now2 pick d a = (d, a).
Proof.
  intros H. apply trim_empty_iff in H. unfold handleCreate. rewrite H. reflexivity.
Qed.

Lemma handleCreate_blank_title_witness :
  handleCreate 1 2 3 {| showCreateModal := true; newBookTitle := "  " |} oneBook
  = ({| showCreateModal := true; newBookTitle := "  " |}, oneBook).
Proof.
  apply handleCreate_blank_title. cbn. repeat constructor.
Defined.



(** ** The history pointer along a run, and bookmarks *)

(** X26. The history pointer stays in range along every run of events in
    which no inserted image arrives from an older render: from a state with
    the pointer between -1 and the last index of the history, any such run
    that completes ends in a state with the pointer in that range. *)
Theorem pointer_in_range_along_fresh_runs (evs : list Event) :
  forall s s' : EditorState,
    pointerInRange (stack s) ->
    freshRun evs s ->
    run evs s = Return s' ->
    pointerInRange (stack s').
Proof.
  induction evs as [|ev evs IH]; intros s s' Hin Hfresh Hrun.
  - injection Hrun as <-. exact Hin.
  - cbn [run freshRun] in *. destruct Hfresh as [Hev Hrest].
    destruct (step ev s) as [s1|] eqn:Hstep; [|discriminate].
    cbn [bind] in Hrun. apply (IH s1 s').
    + exact (step_pointerInRange ev s s1 Hin Hev Hstep).
    + apply Hrest. reflexivity.
    + exact Hrun.
Qed.

Lemma pointer_in_range_along_fresh_runs_witness :
  pointerInRange (stack (uploadOnload 0 (handleImageUpload [] penOnBlank))).
Proof.
  apply (pointer_in_range_along_fresh_runs [ChooseImage []; UploadLoaded 0] penOnBlank).
  - unfold pointerInRange. cbn. lia.
  - cbn [freshRun]. split; [intros i k img Hev; discriminate|].
    intros s1 H1. cbn [step] in H1. injection H1 as <-.
    split; [|intros; exact I].
    intros i k img Hev Hi. injection Hev as <-. cbn in Hi. injection Hi as <- _.
    reflexivity.
  - reflexivity.
Defined.

Lemma find_map_preserved {A} (P : A -> bool) (g : A -> A) (l : list A) :
  (forall x, P (g x) = P x) -> List.find P (map g l) = g <$> List.find P l.
Proof.
  intros HP. induction l as [|x l IH]; [reflexivity|].
  cbn [map List.find]. rewrite HP. destruct (P x); [reflexivity|exact IH].
Qed.

Lemma toggleBookmark_involutive (id : string) (bk : Book.t) :
  toggleBookmark id (toggleBookmark id bk) = bk.
Proof.
  destruct bk as [bid t c st ps u]. unfold toggleBookmark. cbn. f_equal.
  rewrite map_map. induction ps as [|p ps IH]; [reflexivity|].
  cbn [map]. rewrite IH. f_equal.
  destruct (decide (Page.id p = id)) as [E|E].
  - rewrite (bool_decide_eq_true_2 _ E). cbn. rewrite (bool_decide_eq_true_2 _ E).
    destruct p. cbn. rewrite negb_involutive. reflexivity.
  - rewrite (bool_decide_eq_false_2 _ E). rewrite (bool_decide_eq_false_2 _ E). reflexivity.
Qed.

Lemma same_id_same_book (l : list Book.t) (x y : Book.t) :
  NoDup (Book.id <$> l) -> x ∈ l -> y ∈ l -> Book.id x = Book.id y -> x = y.
Proof.
  intros Hnd Hx Hy E.
  apply list_elem_of_lookup in Hx. destruct Hx as [i Hi].
  apply list_elem_of_lookup in Hy. destruct Hy as [j Hj].
  assert (i = j) as ->.
  { eapply (NoDup_lookup _ i j (Book.id x) Hnd).
    - rewrite list_lookup_fmap, Hi. reflexivity.
    - rewrite list_lookup_fmap, Hj. cbn. congruence. }
  congruence.
Qed.

(** X27. Bookmarking is an involution when book identifiers are distinct:
    two clicks on the bookmark of the same page give back the state of the
    application, time stamp of the book included. *)
Theorem clickBookmark_involutive (id : string) (a : AppState) :
  NoDup (Book.id <$> books a) ->
  clickBookmark id (clickBookmark id a) = a.
Proof.
  intros Hnd. unfold clickBookmark at 2.
  destruct (currentView a) eqn:Hv;
    try (unfold clickBookmark; rewrite Hv; reflexivity).
  destruct (activeBook a) as [b|] eqn:Hb;
    [|unfold clickBookmark; rewrite Hv, Hb; reflexivity].
  unfold clickBookmark.
  assert (Hb1 : activeBook (handleUpdateBook (toggleBookmark id b) a)
                = Some (toggleBookmark id b)).
  { unfold activeBook in *. cbn [handleUpdateBook books setBooks activeBookId].
    rewrite find_map_preserved.
    - rewrite Hb. cbn. rewrite bool_decide_eq_true_2 by reflexivity. reflexivity.
    - intros x. destruct (bool_decide (Book.id x = Book.id (toggleBookmark id b))) eqn:E;
        [|reflexivity].
      apply bool_decide_eq_true in E. rewrite E. reflexivity. }
  rewrite Hb1. cbn [handleUpdateBook currentView setBooks]. rewrite Hv.
  rewrite toggleBookmark_involutive.
  destruct a as [bs v ab ap dm]. unfold handleUpdateBook, setBooks. cbn in *. f_equal.
  rewrite map_map.
  assert (Hin : b ∈ bs).
  { unfold activeBook in Hb. cbn in Hb. apply List.find_some in Hb.
    apply list_elem_of_In. exact (proj1 Hb). }
  rewrite <- (map_id bs) at 2. apply map_ext_in. intros x Hx.
  apply list_elem_of_In in Hx.
  destruct (decide (Book.id x = Book.id b)) as [E|E].
  - rewrite (bool_decide_eq_true_2 _ E). rewrite bool_decide_eq_true_2 by reflexivity.
    symmetry. exact (same_id_same_book bs x b Hnd Hx Hin E).
  - rewrite (bool_decide_eq_false_2 _ E). rewrite (bool_decide_eq_false_2 _ E). reflexivity.
Qed.

Lemma clickBookmark_involutive_witness :
  clickBookmark (pretty 5%Z) (clickBookmark (pretty 5%Z) (oneBook |> setCurrentView book))
  = (oneBook |> setCurrentView book).
Proof.
  apply clickBookmark_involutive. cbn. apply NoDup_singleton.
Defined.
End Editor.
